(** * Tenant database registry and router: a shallow embedding

  The development follows the Python sources module by module:
  - [Py]           the few pieces of Python semantics the code leans on
                   (truthiness, [or], exceptions as outcomes);
  - [Router]       communication/db_router.py;
  - [Middleware]   communication/middleware.py;
  - [Mixins]       communicationapp/mixins.py;
  - [Models]       config/models.py;
  - [Vault]        api/utils.py and communicationapp/utils.py (passwords);
  - [Registration] api/views.py, RegisterDBAPIView.post;
  - [Directory]    communicationapp/utils.py (directory client, cache,
                   alias registration);
  - [Ready]        communicationapp/mixins.py, _ensure_alias_ready.

  Python strings are [string]; dictionaries are [gmap]; sets are [gset]. *)

From Stdlib Require Import ZArith Bool.
From stdpp Require Import gmap strings list fin_maps pretty.

Local Open Scope string_scope.

(** ** Python semantics shared by all modules *)
Module Py.

(** [bool(s)] for a [str]: only the empty string is falsy. *)
Definition truthy (s : string) : bool :=
  match s with
  | EmptyString => false
  | String _ _ => true
  end.

(** [bool(x)] for a value that is either [None] or a [str]. *)
Definition truthy_opt (o : option string) : bool :=
  match o with
  | Some s => truthy s
  | None => false
  end.

(** [a or b] on values that are [None] or a [str]. *)
Definition or_ (a b : option string) : option string :=
  if truthy_opt a then a else b.

(** [s.startswith(p)] *)
Definition startswith (s p : string) : bool := String.prefix p s.

(** Exceptions the modelled code raises or lets through. *)
Inductive exn : Type :=
| ValueError (msg : string)
| RuntimeError (msg : string)
| DatabaseError (msg : string)
| ValidationError (msg : string)
| IntegrityError (msg : string)
| InvalidToken
| OtherError (msg : string).

(** The result of running a statement: it returns or it raises. *)
Inductive outcome (A : Type) : Type :=
| Returned (a : A)
| Raised (e : exn).
Arguments Returned {A} a.
Arguments Raised {A} e.

Definition is_raised {A} (o : outcome A) : bool :=
  match o with
  | Returned _ => false
  | Raised _ => true
  end.

End Py.

(** ** communication/db_router.py *)
Module Router.
Import Py.

(** The ambient tenant: the [ContextVar] [_current_tenant] (default [None])
    and the attribute [tenant_id] of [_thread_local]; a missing attribute
    and an attribute holding [None] read the same through
    [getattr(_thread_local, 'tenant_id', None)]. *)
Record TenantState : Type := mkTenantState {
  current_tenant : option string;
  thread_local_tenant_id : option string
}.

(** State of a fresh thread: nothing bound. *)
Definition unbound : TenantState := mkTenantState None None.

Definition set_current_tenant (tenant_id : option string) (_ : TenantState)
  : TenantState :=
  mkTenantState tenant_id tenant_id.

Definition get_current_tenant (st : TenantState) : option string :=
  match current_tenant st with
  | Some tenant_id => Some tenant_id
  | None => thread_local_tenant_id st
  end.

(** A model class, as far as the router looks at it: [model._meta.app_label]. *)
Record Model : Type := mkModel { app_label : string }.

(** The keyword arguments [**hints]. *)
Abbreviation Hints := (gmap string string).

Definition master_apps : gset string :=
  {[ "auth"; "admin"; "contenttypes"; "sessions"; "config"; "messages" ]}.

Definition postgres_main_apps : gset string := {[ "databases" ]}.

Definition tenant_apps : gset string := {[ "api"; "communicationapp" ]}.

(** [x in s] for a set of strings. *)
Definition in_set (x : string) (s : gset string) : bool := bool_decide (x ∈ s).

Definition _get_tenant_db (hints : Hints) (st : TenantState) : option string :=
  let from_hints :=
    if bool_decide (hints ≠ ∅) then
      match hints !! "tenant_db" with
      | Some tenant_db => if truthy tenant_db then Some tenant_db else None
      | None => None
      end
    else None in
  match from_hints with
  | Some tenant_db => Some tenant_db
  | None =>
      match get_current_tenant st with
      | Some tenant_id =>
          if truthy tenant_id && negb (String.eqb tenant_id "default")
          then Some ("client_" +:+ tenant_id)
          else None
      | None => None
      end
  end.

Definition db_for_read (model : Model) (hints : Hints) (st : TenantState)
  : string :=
  let app_label := app_label model in
  if in_set app_label master_apps then "default"
  else if in_set app_label postgres_main_apps then "postgres_main"
  else
    match (if in_set app_label tenant_apps
           then _get_tenant_db hints st else None) with
    | Some tenant_db => if truthy tenant_db then tenant_db else "default"
    | None => "default"
    end.

Definition db_for_write (model : Model) (hints : Hints) (st : TenantState)
  : string :=
  let app_label := app_label model in
  if in_set app_label master_apps then "default"
  else if in_set app_label postgres_main_apps then "postgres_main"
  else
    match (if in_set app_label tenant_apps
           then _get_tenant_db hints st else None) with
    | Some tenant_db => if truthy tenant_db then tenant_db else "default"
    | None => "default"
    end.

Definition allow_migrate (db app_label : string) : bool :=
  if in_set app_label master_apps then String.eqb db "default"
  else if in_set app_label postgres_main_apps then String.eqb db "postgres_main"
  else if in_set app_label tenant_apps then
    if String.eqb db "default" then false else startswith db "client_"
  else String.eqb db "default".

Definition allow_relation (obj1 obj2 : Model) (hints : Hints)
  (st : TenantState) : bool :=
  let db1 := db_for_read obj1 hints st in
  let db2 := db_for_read obj2 hints st in
  if String.eqb db1 db2 then true
  else if String.eqb db1 "default" && String.eqb db2 "default" then true
  else false.

End Router.

(** ** communication/middleware.py *)
Module Middleware.
Import Py Router.

(** The parts of a Django request the middleware reads and writes:
    [request.headers], [request.GET], [request.META], and the two attributes
    [process_request] stores on the request. *)
Record HttpRequest : Type := mkHttpRequest {
  headers : gmap string string;
  GET : gmap string string;
  META : gmap string string;
  tenant_db : option string;
  tenant_id : option string
}.

Record HttpResponse : Type := mkHttpResponse {
  status_code : Z;
  content : string
}.

(** [self.get_response]: the rest of the handler chain.  It is ordinary
    Python: it may return a response or raise, and it runs in the same
    thread, so it sees and may change the ambient tenant. *)
Definition Handler : Type :=
  HttpRequest -> TenantState -> outcome HttpResponse * TenantState.

Definition extract_tenant_id (request : HttpRequest) : string :=
  match or_ (or_ (or_ (headers request !! "X-Tenant")
                      (GET request !! "tenant"))
                 (META request !! "HTTP_X_TENANT"))
            (Some "default") with
  | Some t => t
  | None => "default"
  end.

Definition process_request (request : HttpRequest) (st : TenantState)
  : HttpRequest * TenantState :=
  let tenant_id := extract_tenant_id request in
  let st' := set_current_tenant (Some tenant_id) st in
  (mkHttpRequest (headers request) (GET request) (META request)
     (Some (if negb (String.eqb tenant_id "default")
            then "client_" +:+ tenant_id else "default"))
     (Some tenant_id),
   st').

Definition process_response (request : HttpRequest) (response : HttpResponse)
  (st : TenantState) : HttpResponse * TenantState :=
  (response, set_current_tenant None st).

(** [TenantMiddleware.__call__]: there is no [try] around the call of
    [get_response], an error it raises leaves the method at once.  The
    result is [None] when no [get_response] was given. *)
Definition __call__ (get_response : option Handler) (request : HttpRequest)
  (st : TenantState) : outcome (option HttpResponse) * TenantState :=
  match get_response with
  | Some handler =>
      let '(request1, st1) := process_request request st in
      match handler request1 st1 with
      | (Returned response, st2) =>
          let '(response', st3) := process_response request1 response st2 in
          (Returned (Some response'), st3)
      | (Raised e, st2) => (Raised e, st2)
      end
  | None => (Returned None, st)
  end.

End Middleware.

(** ** communicationapp/mixins.py *)
Module Mixins.
Import Py Router Middleware.

(** [RouterTenantContextMixin.finalize_response]: the parent's
    [finalize_response] inside [try], [set_current_tenant(None)] inside
    [finally].  The import names [vendor_service.db_router]; it is taken to
    be the router module above. *)
Definition finalize_response (super_finalize_response : HttpResponse -> Handler)
  (request : HttpRequest) (response : HttpResponse) (st : TenantState)
  : outcome HttpResponse * TenantState :=
  let '(result, st1) := super_finalize_response response request st in
  (result, set_current_tenant None st1).

End Mixins.

(** ** config/models.py *)
Module Models.
Import Py.

(** The columns of [UserDatabase] other than the primary key. *)
Record UserDatabase : Type := mkUserDatabase {
  is_deleted : bool;
  deleted_at : option Z;
  user_id : Z;
  username : option string;
  db_name : string;
  db_user : string;
  db_password : string;
  db_host : string;
  db_port : string;
  db_type : string
}.

(** A model instance in memory: its primary key (absent before the first
    save) and its field values. *)
Record Instance : Type := mkInstance {
  pk : option Z;
  fields : UserDatabase
}.

(** The table: rows by primary key, and the next value of the id sequence. *)
Record Table : Type := mkTable {
  rows : gmap Z UserDatabase;
  next_id : Z
}.

Definition set_deleted (deleted : bool) (at_ : option Z) (r : UserDatabase)
  : UserDatabase :=
  mkUserDatabase deleted at_ (user_id r) (username r) (db_name r) (db_user r)
    (db_password r) (db_host r) (db_port r) (db_type r).

(** Django's [save(update_fields=["is_deleted", "deleted_at"])]: an UPDATE of
    these two columns of the row with the instance's primary key.  It raises
    when the instance has no primary key or when no row was updated. *)
Definition save_deleted_fields (self : Instance) (tbl : Table)
  : outcome unit * Table :=
  match pk self with
  | None =>
      (Raised (ValueError "Cannot force an update in save() with no primary key."),
       tbl)
  | Some k =>
      match rows tbl !! k with
      | None =>
          (Raised (DatabaseError "Save with update_fields did not affect any rows."),
           tbl)
      | Some row =>
          (Returned tt,
           mkTable (<[k := set_deleted (is_deleted (fields self))
                                       (deleted_at (fields self)) row]> (rows tbl))
                   (next_id tbl))
      end
  end.

(** [SoftDeleteModel.delete], at time [now]. *)
Definition delete (self : Instance) (now : Z) (tbl : Table)
  : outcome unit * Instance * Table :=
  let self1 := mkInstance (pk self) (set_deleted true (Some now) (fields self)) in
  let '(result, tbl') := save_deleted_fields self1 tbl in
  (result, self1, tbl').

(** [SoftDeleteModel.hard_delete]: Django's own [Model.delete], a DELETE of
    the row with the instance's primary key. *)
Definition hard_delete (self : Instance) (tbl : Table)
  : outcome unit * Instance * Table :=
  match pk self with
  | None =>
      (Raised (ValueError "object can't be deleted because its id attribute is set to None."),
       self, tbl)
  | Some k =>
      (Returned tt, mkInstance None (fields self),
       mkTable (base.delete k (rows tbl)) (next_id tbl))
  end.

(** [UserDatabase.objects.filter(user_id=...).exists()]; [objects] is
    Django's default manager, the model declares no other. *)
Definition exists_user_id (uid : Z) (tbl : Table) : bool :=
  bool_decide (map_Exists (fun _ r => user_id r = uid) (rows tbl)).

Definition lower_ascii (c : Ascii.ascii) : Ascii.ascii :=
  let n := Ascii.nat_of_ascii c in
  if (65 <=? n)%nat && (n <=? 90)%nat then Ascii.ascii_of_nat (n + 32) else c.

Fixpoint lower (s : string) : string :=
  match s with
  | EmptyString => EmptyString
  | String c s' => String (lower_ascii c) (lower s')
  end.

(** Both uniqueness rules on [username] ([unique=True] and the constraint
    on [Lower("username")]); NULL never clashes. *)
Definition username_clash (name : option string) (tbl : Table) : bool :=
  match name with
  | None => false
  | Some n =>
      bool_decide (map_Exists (fun _ r => lower <$> username r = Some (lower n))
                              (rows tbl))
  end.

(** [UserDatabase.objects.create(...)]: an INSERT under a fresh id. *)
Definition create (r : UserDatabase) (tbl : Table)
  : outcome Instance * Table :=
  if username_clash (username r) tbl then
    (Raised (IntegrityError "duplicate key value violates unique constraint"),
     tbl)
  else
    (Returned (mkInstance (Some (next_id tbl)) r),
     mkTable (<[next_id tbl := r]> (rows tbl)) (next_id tbl + 1)).

End Models.

(** ** What the code takes from Django settings, the libraries and the
    outside world *)
Module Ext.
Import Py.

(** [cryptography.fernet.Fernet], as far as the code uses it.  [key_ok k]
    says that the constructor [Fernet(k)] accepts the key; encryption draws
    an initialisation vector and a time stamp, here the second argument;
    decryption yields [None] where the library raises [InvalidToken].
    A [str] is represented by its UTF-8 bytes, so [encode] and [decode]
    do not appear. *)
Record Fernet : Type := mkFernet {
  key_ok : string -> bool;
  fernet_encrypt : string -> string -> string -> string;
  fernet_decrypt : string -> string -> option string
}.

(** The law of the library: a token decrypts to its plaintext under the
    key it was made with. *)
Definition fernet_correct (F : Fernet) : Prop :=
  forall key iv msg,
    key_ok F key = true ->
    fernet_decrypt F key (fernet_encrypt F key iv msg) = Some msg.

(** [Fernet(key)] *)
Definition new_fernet (F : Fernet) (key : string) : outcome string :=
  if key_ok F key then Returned key
  else Raised (ValueError "Fernet key must be 32 url-safe base64-encoded bytes.").

(** [f.decrypt(token)] *)
Definition decrypt_token (F : Fernet) (f token : string) : outcome string :=
  match fernet_decrypt F f token with
  | Some msg => Returned msg
  | None => Raised InvalidToken
  end.

Record Settings : Type := mkSettings {
  DB_ENCRYPTION_KEY : option string;
  SECRET_KEY : string;
  TIME_ZONE : option string
}.

(** One entry of [settings.DATABASES]. *)
Record DbConfig : Type := mkDbConfig {
  ENGINE : string;
  NAME : string;
  USER : string;
  PASSWORD : string;
  HOST : string;
  PORT : Z;
  CFG_TIME_ZONE : option string;
  CONN_MAX_AGE : Z;
  CONN_HEALTH_CHECKS : bool;
  AUTOCOMMIT : bool;
  OPTIONS_connect_timeout : Z
}.

(** The outside world, one field per call that leaves the repository. *)
Record Externals : Type := mkExternals {
  fernet : Fernet;
  generate_key : string;                    (* Fernet.generate_key() *)
  fresh_iv : string;                        (* randomness of f.encrypt *)
  py_int : string -> option Z;              (* int(s); None: ValueError *)
  gethostbyname : string -> option string;  (* None: socket.error *)
  (* psycopg2.connect(...) followed by close(); a [DatabaseError] stands
     for psycopg2.Error *)
  psycopg2_connect : string -> string -> string -> string -> Z -> outcome unit;
  (* call_command('migrate', 'api', database=alias), which reads the
     connection table *)
  call_command_migrate : string -> gmap string DbConfig -> outcome string;
  call_command_showmigrations : string -> outcome string
}.

Definition exn_message (e : exn) : string :=
  match e with
  | ValueError m | RuntimeError m | DatabaseError m
  | ValidationError m | IntegrityError m | OtherError m => m
  | InvalidToken => ""
  end.

(** The process-wide state the registration touches.  [settings.DATABASES]
    and [connections.databases] are kept as two tables; every write and
    every [pop] in the code is done on both. *)
Record World : Type := mkWorld {
  table : Models.Table;
  settings_DATABASES : gmap string DbConfig;
  connections_databases : gmap string DbConfig
}.

End Ext.

(** ** api/utils.py *)
Module ApiUtils.
Import Py Ext.

Definition get_encryption_key (env : Externals) (settings : Settings) : string :=
  match DB_ENCRYPTION_KEY settings with
  | Some key => if truthy key then key else generate_key env
  | None => generate_key env
  end.

(** The body of the [try] of [encrypt_password]. *)
Definition encrypt_password_try (env : Externals) (settings : Settings)
  (password : string) : outcome string :=
  let key := get_encryption_key env settings in
  match new_fernet (fernet env) key with
  | Returned f => Returned (fernet_encrypt (fernet env) f (fresh_iv env) password)
  | Raised e => Raised e
  end.

Definition encrypt_password (env : Externals) (settings : Settings)
  (password : string) : string :=
  match encrypt_password_try env settings password with
  | Returned encrypted_password => encrypted_password
  | Raised _ => password
  end.

(** The body of the [try] of [decrypt_password]; the argument is a [str],
    so the [isinstance] test holds. *)
Definition decrypt_password_try (env : Externals) (settings : Settings)
  (encrypted_password : string) : outcome string :=
  let legacy :=
    let key := String.substring 0 32 (SECRET_KEY settings) in
    match new_fernet (fernet env) key with
    | Returned f => decrypt_token (fernet env) f encrypted_password
    | Raised e => Raised e
    end in
  match DB_ENCRYPTION_KEY settings with
  | Some key =>
      if truthy key then
        match new_fernet (fernet env) key with
        | Returned f => decrypt_token (fernet env) f encrypted_password
        | Raised e => Raised e
        end
      else legacy
  | None => legacy
  end.

Definition decrypt_password (env : Externals) (settings : Settings)
  (encrypted_password : string) : string :=
  match decrypt_password_try env settings encrypted_password with
  | Returned decrypted_password => decrypted_password
  | Raised _ => encrypted_password
  end.

(** [test_db_connection] called with individual parameters ([config] is
    [None]); [port] is a [str]. *)
Definition test_db_connection (env : Externals)
  (name user password host port : string) : bool * string :=
  match py_int env port with
  | None =>
      (false, "Connection failed: invalid literal for int() with base 10: '"
              +:+ port +:+ "'")
  | Some port_int =>
      match psycopg2_connect env name user password host port_int with
      | Returned _ => (true, "Connection successful")
      | Raised (DatabaseError m) => (false, m)
      | Raised e => (false, "Connection failed: " +:+ exn_message e)
      end
  end.

Definition add_db_alias (env : Externals) (settings : Settings)
  (alias db_name db_user db_password db_host db_port : string)
  (config : option DbConfig) (w : World) : outcome unit * World :=
  match config with
  | Some cfg =>
      (Returned tt,
       mkWorld (table w) (<[alias := cfg]> (settings_DATABASES w))
               (connections_databases w))
  | None =>
      match py_int env db_port with
      | None =>
          (Raised (ValueError ("invalid literal for int() with base 10: '"
                               +:+ db_port +:+ "'")), w)
      | Some port_int =>
          let cfg :=
            mkDbConfig "django.db.backends.postgresql" db_name db_user
              db_password db_host port_int (TIME_ZONE settings) 60 true true 10 in
          (Returned tt,
           mkWorld (table w) (<[alias := cfg]> (settings_DATABASES w))
                   (<[alias := cfg]> (connections_databases w)))
      end
  end.

End ApiUtils.

(** ** communicationapp/utils.py *)
Module CommUtils.
Import Py Ext.

(** [decrypt_password]; [key] is the module constant [DB_ENCRYPTION_KEY],
    read from the environment and stripped, empty when unset. *)
Definition decrypt_password (F : Fernet) (key : string) (enc_password : string)
  : outcome string :=
  if negb (truthy key) then
    Raised (RuntimeError
      "DB_ENCRYPTION_KEY not set; cannot decrypt db_password_encrypted")
  else
    match (match new_fernet F key with
           | Returned f => decrypt_token F f enc_password
           | Raised e => Raised e
           end) with
    | Returned p => Returned p
    | Raised e => Raised (RuntimeError ("Fernet decrypt failed: " +:+ exn_message e))
    end.

End CommUtils.

(** ** api/serializers.py, [UserDatabaseSerializer] *)
Module Serializers.
Import Py Ext.

(** [ser.validated_data] *)
Record ValidatedData : Type := mkValidatedData {
  user_id : Z;
  username : option string;
  db_name : string;
  db_user : string;
  db_password : string;
  db_host : string;
  db_port : string;
  db_type : option string
}.

(** [request.data] *)
Abbreviation RequestData := (gmap string string).

(** The work of the declared REST framework fields (types, lengths,
    defaults, choices): the validated values, or the error report. *)
Definition FieldValidation : Type := RequestData -> string + ValidatedData.

Definition validate_db_port (env : Externals) (value : string) : outcome string :=
  match py_int env value with
  | Some port_int =>
      if negb ((1 <=? port_int)%Z && (port_int <=? 65535)%Z)
      then Raised (ValidationError "Port must be between 1 and 65535")
      else Returned value
  | None => Raised (ValidationError "Port must be a valid number")
  end.

(** [ser.is_valid()]: [inl] carries [ser.errors]. *)
Definition is_valid (env : Externals) (run_fields : FieldValidation)
  (data : RequestData) : string + ValidatedData :=
  match run_fields data with
  | inl errors => inl errors
  | inr d =>
      match validate_db_port env (db_port d) with
      | Returned _ => inr d
      | Raised e => inl (exn_message e)
      end
  end.

End Serializers.

(** ** api/views.py, [RegisterDBAPIView.post] *)
Module Views.
Import Py Ext Serializers.

Record Response : Type := mkResponse {
  status : Z;
  detail : string;
  alias : option string
}.

Definition HTTP_201_CREATED : Z := 201.
Definition HTTP_400_BAD_REQUEST : Z := 400.
Definition HTTP_500_INTERNAL_SERVER_ERROR : Z := 500.

(** The response of the "Already registered?" test of [post]. *)
Definition duplicate_response (user_id : Z) : Response :=
  mkResponse HTTP_400_BAD_REQUEST
    ("DB entry already exists for user_id " +:+ pretty user_id +:+ ".") None.

(** The [try] block of [post]: register the alias, migrate, and list the
    migrations (a failure of the listing is swallowed). *)
Definition post_try (env : Externals) (settings : Settings)
  (d : ValidatedData) (db_alias real_pw : string) (w : World)
  : outcome unit * World :=
  match ApiUtils.add_db_alias env settings db_alias (db_name d) (db_user d)
          real_pw (db_host d) (db_port d) None w with
  | (Raised e, w1) => (Raised e, w1)
  | (Returned _, w1) =>
      match call_command_migrate env db_alias (connections_databases w1) with
      | Raised e => (Raised e, w1)
      | Returned _ =>
          match call_command_showmigrations env db_alias with
          | Returned _ => (Returned tt, w1)
          | Raised _ => (Returned tt, w1)
          end
      end
  end.

(** The [except] block of [post]: the clean-up. *)
Definition post_except (e : exn) (entry : Models.Instance) (now : Z)
  (db_alias : string) (w : World) : outcome Response * World :=
  match Models.delete entry now (table w) with
  | (Raised e', _, tbl) =>
      (Raised e', mkWorld tbl (settings_DATABASES w) (connections_databases w))
  | (Returned _, _, tbl) =>
      (Returned (mkResponse HTTP_500_INTERNAL_SERVER_ERROR
                   ("Migration failed: " +:+ exn_message e) None),
       mkWorld tbl (base.delete db_alias (settings_DATABASES w))
                   (base.delete db_alias (connections_databases w)))
  end.

(** [post], at time [now].  The [finally] block only closes a connection
    and swallows every error, it leaves the modelled state alone. *)
Definition post (env : Externals) (run_fields : FieldValidation)
  (settings : Settings) (now : Z) (data : RequestData) (w : World)
  : outcome Response * World :=
  match is_valid env run_fields data with
  | inl errors => (Returned (mkResponse HTTP_400_BAD_REQUEST errors None), w)
  | inr d =>
      let user_id := user_id d in
      let username := username d in
      let db_alias := "client_" +:+ pretty user_id in
      if Models.exists_user_id user_id (table w) then
        (Returned (duplicate_response user_id), w)
      else
        match gethostbyname env (db_host d) with
        | None =>
            (Returned (mkResponse HTTP_400_BAD_REQUEST
                         ("Host '" +:+ db_host d +:+ "' is not resolvable.") None),
             w)
        | Some ip =>
            let real_pw := ApiUtils.decrypt_password env settings (db_password d) in
            let '(ok, err) :=
              ApiUtils.test_db_connection env (db_name d) (db_user d) real_pw
                (db_host d) (db_port d) in
            if negb ok then
              (Returned (mkResponse HTTP_400_BAD_REQUEST
                           ("Connect failed: " +:+ err) None), w)
            else if bool_decide (is_Some (settings_DATABASES w !! db_alias)) then
              (Returned (mkResponse HTTP_400_BAD_REQUEST
                           ("DB alias '" +:+ db_alias
                            +:+ "' already exists in settings.") None), w)
            else
              match Models.create
                      (Models.mkUserDatabase false None user_id username
                         (db_name d) (db_user d) (db_password d) (db_host d)
                         (db_port d)
                         (match db_type d with
                          | Some t => if truthy t then t else "self_hosted"
                          | None => "self_hosted"
                          end))
                      (table w) with
              | (Raised e, _) => (Raised e, w)
              | (Returned entry, tbl1) =>
                  let w1 := mkWorld tbl1 (settings_DATABASES w)
                                    (connections_databases w) in
                  match post_try env settings d db_alias real_pw w1 with
                  | (Raised e, w2) => post_except e entry now db_alias w2
                  | (Returned _, w2) =>
                      (Returned (mkResponse HTTP_201_CREATED
                                   "DB registered and API tables migrated."
                                   (Some db_alias)), w2)
                  end
              end
        end
  end.

End Views.

(** ** Concrete stand-ins for the outside world, used to run the code *)
Module Sample.
Import Py Ext.

(** A stand-in for Fernet: keys of 44 characters are accepted, a token is
    the key followed by the message. *)
Definition sample_fernet : Fernet :=
  mkFernet
    (fun key => Nat.eqb (String.length key) 44)
    (fun key _ msg => key +:+ msg)
    (fun key token =>
       if String.prefix key token
       then Some (String.substring (String.length key)
                    (String.length token - String.length key) token)
       else None).

Definition sample_key : string := "MDEyMzQ1Njc4OWFiY2RlZjAxMjM0NTY3ODlhYmNkZWY=".

Definition sample_settings : Settings :=
  mkSettings (Some sample_key) "django-insecure-secret" (Some "UTC").

(** Decimal digits only. *)
Fixpoint digits (s : string) (acc : Z) : option Z :=
  match s with
  | EmptyString => Some acc
  | String c s' =>
      let n := Ascii.nat_of_ascii c in
      if (48 <=? n)%nat && (n <=? 57)%nat
      then digits s' (10 * acc + Z.of_nat (n - 48))
      else None
  end.

Definition sample_int (s : string) : option Z :=
  match s with
  | EmptyString => None
  | _ => digits s 0
  end.

(** Every host resolves, every connection opens, a migration fails when
    [migrate_ok] is [false]. *)
Definition sample_env (migrate_ok : bool) : Externals :=
  mkExternals sample_fernet sample_key "iv" sample_int
    (fun _ => Some "10.0.0.1")
    (fun _ _ _ _ _ => Returned tt)
    (fun _ _ => if migrate_ok then Returned "OK"
                else Raised (DatabaseError "relation already exists"))
    (fun _ => Returned "").

(** A stand-in for the field layer: four required fields, the defaults of
    the others. *)
Definition sample_fields : Serializers.FieldValidation := fun data =>
  match data !! "user_id" ≫= sample_int,
        data !! "db_name", data !! "db_user", data !! "db_password" with
  | Some uid, Some n, Some u, Some p =>
      inr (Serializers.mkValidatedData uid (data !! "username") n u p
             (default "localhost" (data !! "db_host"))
             (default "5432" (data !! "db_port"))
             (Some (default "self_hosted" (data !! "db_type"))))
  | _, _, _, _ => inl "This field is required."
  end.

(** A registration payload for tenant 7. *)
Definition sample_payload : gmap string string :=
  <["user_id" := "7"]> (<["db_name" := "tenant7"]> (<["db_user" := "app"]>
    (<["db_password" := sample_key +:+ "s3cret"]> ∅))).

Definition empty_world : World :=
  mkWorld (Models.mkTable ∅ 1) ∅ ∅.

(** The stored record of tenant 7 and the table that holds it under id 1. *)
Definition sample_row : Models.UserDatabase :=
  Models.mkUserDatabase false None 7 (Some "acme") "tenant7" "app"
    (sample_key +:+ "s3cret") "localhost" "5432" "self_hosted".

Definition sample_instance : Models.Instance :=
  Models.mkInstance (Some 1%Z) sample_row.

Definition sample_table : Models.Table :=
  Models.mkTable (<[1%Z := sample_row]> ∅) 2.

(** What the field layer makes of the payload. *)
Definition sample_validated : Serializers.ValidatedData :=
  Serializers.mkValidatedData 7 None "tenant7" "app" (sample_key +:+ "s3cret")
    "localhost" "5432" (Some "self_hosted").

(** A world in which tenant 7 is registered already. *)
Definition registered_world : World := mkWorld sample_table ∅ ∅.

(** The world after a registration of tenant 7 whose migration failed. *)
Definition failed_world : World :=
  (Views.post (sample_env false) sample_fields sample_settings 1000
     sample_payload empty_world).2.

End Sample.

(** ** communicationapp/utils.py: the directory client and the registry *)
Module Directory.
Import Py Ext.

(** The values the code meets in the JSON object of the accounts service
    and in the tenant dictionary of a token: null, booleans, integers and
    strings. *)
Inductive JsonVal : Type :=
| JNull
| JBool (b : bool)
| JInt (n : Z)
| JStr (s : string).

(** [str(v)], and [f"{v}"]. *)
Definition py_str (v : JsonVal) : string :=
  match v with
  | JNull => "None"
  | JBool true => "True"
  | JBool false => "False"
  | JInt n => pretty n
  | JStr s => s
  end.

(** [type(v).__name__] *)
Definition type_name (v : JsonVal) : string :=
  match v with
  | JNull => "NoneType"
  | JBool _ => "bool"
  | JInt _ => "int"
  | JStr _ => "str"
  end.

(** [bool(v)] *)
Definition json_truthy (v : JsonVal) : bool :=
  match v with
  | JNull => false
  | JBool b => b
  | JInt n => negb (n =? 0)%Z
  | JStr s => truthy s
  end.

(** [bool(d.get(k))]: a missing key reads as [None]. *)
Definition get_truthy (o : option JsonVal) : bool :=
  match o with
  | Some v => json_truthy v
  | None => false
  end.

(** [k not in data or data[k] in (None, "")] *)
Definition missing_or_empty (o : option JsonVal) : bool :=
  match o with
  | None => true
  | Some JNull => true
  | Some (JStr s) => negb (truthy s)
  | Some _ => false
  end.

(** The module constants, read from the environment at import time. *)
Record Config : Type := mkConfig {
  ACCOUNTS_URL : string;
  INTERNAL_REGISTER_DB_TOKEN : string;
  ACCOUNTS_TIMEOUT : Z;
  DB_ENCRYPTION_KEY : string;
  TENANT_CONN_TIMEOUT : Z
}.

Definition CACHE_TTL_SECONDS : Z := 2000.

(** The attributes the code reads from Django's settings with [getattr];
    [None] stands for a missing attribute. *)
Record DjangoSettings : Type := mkDjangoSettings {
  settings_TENANT_CONN_MAX_AGE : option Z;
  settings_TENANT_CONN_TIMEOUT : option Z;
  settings_TIME_ZONE : option string
}.

(** The response of [requests.get]: [json] is [None] where [resp.json()]
    raises [JSONDecodeError]. *)
Record HttpReply : Type := mkHttpReply {
  status_code : Z;
  text : string;
  json : option (gmap string JsonVal)
}.

(** The network: [requests.get(url, headers=, params=, timeout=)], with
    [inl] the message of a [RequestException], and [psycopg2.connect]
    followed by [close], with [Some] the message of the exception. *)
Record Net : Type := mkNet {
  net_fernet : Fernet;
  requests_get :
    string -> gmap string string -> gmap string string -> Z
    -> string + HttpReply;
  psycopg2_connect :
    string -> string -> JsonVal -> string -> string -> Z -> option string
}.

(** The dictionary [fetch_client_db_info] returns: the five entries it
    rewrites as [str], and the two password entries as they came. *)
Record ClientDbInfo : Type := mkClientDbInfo {
  alias : string;
  db_name : string;
  db_user : string;
  db_host : string;
  db_port : string;
  db_password_encrypted : option JsonVal;
  db_password : option JsonVal
}.

(** The dictionary [add_db_alias] stores under an alias. *)
Record TenantConfig : Type := mkTenantConfig {
  ENGINE : string;
  NAME : string;
  USER : string;
  PASSWORD : JsonVal;
  HOST : string;
  PORT : string;
  CONN_MAX_AGE : Z;
  CONN_HEALTH_CHECKS : bool;
  ATOMIC_REQUESTS : bool;
  AUTOCOMMIT : bool;
  TIME_ZONE : option string;
  OPTIONS_connect_timeout : Z
}.

(** An entry of [settings.DATABASES]: written by [add_db_alias], or put
    there by the settings file ("default" and the like). *)
Inductive DbEntry : Type :=
| StaticEntry
| TenantEntry (cfg : TenantConfig).

(** An entry of Django's cache: the value and the instant it expires. *)
Record CacheEntry : Type := mkCacheEntry {
  cached : ClientDbInfo;
  expires : Z
}.

(** The process-wide state: the cache, [settings.DATABASES] and
    [connections.databases]. *)
Record State : Type := mkState {
  cache : gmap string CacheEntry;
  settings_DATABASES : gmap string DbEntry;
  connections_databases : gmap string DbEntry
}.

(** [cache.get(key)] at time [now]: an expired entry reads as absent. *)
Definition cache_get (key : string) (now : Z) (c : gmap string CacheEntry)
  : option ClientDbInfo :=
  match c !! key with
  | Some entry => if (now <? expires entry)%Z then Some (cached entry) else None
  | None => None
  end.

(** [cache.set(key, value, timeout)] at time [now]. *)
Definition cache_set (key : string) (value : ClientDbInfo) (timeout now : Z)
  (c : gmap string CacheEntry) : gmap string CacheEntry :=
  <[key := mkCacheEntry value (now + timeout)]> c.

(** [bool(client_id)] for an [Optional[int]]. *)
Definition id_truthy (client_id : option Z) : bool :=
  match client_id with
  | Some n => negb (n =? 0)%Z
  | None => false
  end.

(** [f"tenant_db_info:{client_id or client_username}"] *)
Definition cache_key (client_id : option Z) (client_username : option string)
  : string :=
  "tenant_db_info:" +:+
  match client_id with
  | Some n =>
      if negb (n =? 0)%Z then pretty n
      else match client_username with Some u => u | None => "None" end
  | None => match client_username with Some u => u | None => "None" end
  end.

Definition _headers (cfg : Config) : gmap string string :=
  if truthy (INTERNAL_REGISTER_DB_TOKEN cfg)
  then <["X-Internal-Token" := INTERNAL_REGISTER_DB_TOKEN cfg]>
         {[ "Accept" := "application/json" ]}
  else {[ "Accept" := "application/json" ]}.

(** [_safe_trunc(s, n)].  A [str] is held as its UTF-8 bytes; [len] and
    the slice count characters, which is the same on ASCII text. *)
Definition _safe_trunc (s : string) (n : nat) : string :=
  if (String.length s <=? n)%nat then s
  else String.substring 0 n s +:+ "…".

(** [data[k]] *)
Definition getitem (data : gmap string JsonVal) (k : string) : outcome JsonVal :=
  match data !! k with
  | Some v => Returned v
  | None => Raised (OtherError ("KeyError: '" +:+ k +:+ "'"))
  end.

Definition required : list string := ["db_name"; "db_user"; "db_host"; "db_port"].

(** The part of [fetch_client_db_info] that follows [resp.json()]. *)
Definition check_and_normalise (data : gmap string JsonVal)
  : outcome ClientDbInfo :=
  match List.find (fun k => missing_or_empty (data !! k)) required with
  | Some k => Raised (RuntimeError ("Missing key '" +:+ k
                                    +:+ "' in Accounts response"))
  | None =>
      if negb (get_truthy (data !! "db_password_encrypted"))
         && negb (get_truthy (data !! "db_password"))
      then Raised (RuntimeError
             "Missing db_password or db_password_encrypted in Accounts response")
      else
        let alias :=
          match data !! "alias" with
          | Some v =>
              if json_truthy v then v
              else JStr ("client_" +:+
                         match data !! "user_id" with
                         | Some u => py_str u
                         | None => "None"
                         end)
          | None =>
              JStr ("client_" +:+
                    match data !! "user_id" with
                    | Some u => py_str u
                    | None => "None"
                    end)
          end in
        match getitem data "db_name", getitem data "db_user",
              getitem data "db_host", getitem data "db_port" with
        | Returned n, Returned u, Returned h, Returned p =>
            Returned (mkClientDbInfo (py_str alias) (py_str n) (py_str u)
                        (py_str h) (py_str p)
                        (data !! "db_password_encrypted")
                        (data !! "db_password"))
        | Raised e, _, _, _ | _, Raised e, _, _
        | _, _, Raised e, _ | _, _, _, Raised e => Raised e
        end
  end.

Definition fetch_client_db_info (cfg : Config) (net : Net)
  (client_id : option Z) (client_username : option string)
  : outcome ClientDbInfo :=
  if negb (id_truthy client_id || truthy_opt client_username) then
    Raised (ValueError "Provide client_id or client_username")
  else if negb (truthy (ACCOUNTS_URL cfg)) then
    Raised (RuntimeError "ACCOUNTS_SERVICE_URL not configured")
  else
    let '(url, params) :=
      if id_truthy client_id then
        (ACCOUNTS_URL cfg +:+ "/Client_db_info/by-client-id/",
         ({[ "client_id" := pretty (default 0%Z client_id) ]}
            : gmap string string))
      else
        (ACCOUNTS_URL cfg +:+ "/api/master/user-dbs/by-username/"
           +:+ default "" client_username,
         {[ "username" := default "" client_username ]}) in
    match requests_get net url (_headers cfg) params (ACCOUNTS_TIMEOUT cfg) with
    | inl msg => Raised (RuntimeError ("Accounts request failed: " +:+ msg))
    | inr resp =>
        if negb (status_code resp =? 200)%Z then
          Raised (RuntimeError ("Accounts error " +:+ pretty (status_code resp)
                                +:+ ": " +:+ _safe_trunc (text resp) 280))
        else
          match json resp with
          | None => Raised (RuntimeError "Accounts returned non-JSON response")
          | Some data => check_and_normalise data
          end
    end.

Definition get_cached_client_db_info (cfg : Config) (net : Net) (now : Z)
  (client_id : option Z) (client_username : option string) (st : State)
  : outcome ClientDbInfo * State :=
  if negb (id_truthy client_id || truthy_opt client_username) then
    (Raised (ValueError "Provide client_id or client_username"), st)
  else
    let key := cache_key client_id client_username in
    match cache_get key now (cache st) with
    | Some data => (Returned data, st)
    | None =>
        match fetch_client_db_info cfg net client_id client_username with
        | Raised e => (Raised e, st)
        | Returned data =>
            (Returned data,
             mkState (cache_set key data CACHE_TTL_SECONDS now (cache st))
                     (settings_DATABASES st) (connections_databases st))
        end
    end.

(** [decrypt_password] applied to an entry of the dictionary: a value that
    is not a [str] has no [encode], which the [try] turns into the same
    [RuntimeError] as a bad token. *)
Definition decrypt_entry (cfg : Config) (net : Net) (v : JsonVal)
  : outcome string :=
  match v with
  | JStr s => CommUtils.decrypt_password (net_fernet net) (DB_ENCRYPTION_KEY cfg) s
  | _ =>
      if negb (truthy (DB_ENCRYPTION_KEY cfg)) then
        Raised (RuntimeError
          "DB_ENCRYPTION_KEY not set; cannot decrypt db_password_encrypted")
      else if key_ok (net_fernet net) (DB_ENCRYPTION_KEY cfg) then
        Raised (RuntimeError
          ("Fernet decrypt failed: '" +:+ type_name v
           +:+ "' object has no attribute 'encode'"))
      else
        Raised (RuntimeError
          "Fernet decrypt failed: Fernet key must be 32 url-safe base64-encoded bytes.")
  end.

Definition test_db_connection (cfg : Config) (net : Net)
  (name user : string) (password : JsonVal) (host port : string)
  : bool * option string :=
  match psycopg2_connect net name user password host port
          (TENANT_CONN_TIMEOUT cfg) with
  | None => (true, None)
  | Some e => (false, Some e)
  end.

Definition add_db_alias (settings : DjangoSettings)
  (alias db_name db_user : string) (db_password : JsonVal)
  (db_host db_port : string) (st : State) : string * State :=
  let cfg :=
    mkTenantConfig "django.db.backends.postgresql" db_name db_user db_password
      db_host db_port (default 0%Z (settings_TENANT_CONN_MAX_AGE settings))
      false false true (settings_TIME_ZONE settings)
      (default 10%Z (settings_TENANT_CONN_TIMEOUT settings)) in
  (alias,
   mkState (cache st) (<[alias := TenantEntry cfg]> (settings_DATABASES st))
           (<[alias := TenantEntry cfg]> (connections_databases st))).

(** The password [ensure_alias_for_client] connects with. *)
Definition choose_password (cfg : Config) (net : Net) (data : ClientDbInfo)
  : outcome JsonVal :=
  if get_truthy (db_password_encrypted data) then
    match db_password_encrypted data with
    | Some v =>
        match decrypt_entry cfg net v with
        | Returned p => Returned (JStr p)
        | Raised e => Raised e
        end
    | None => Raised (OtherError "KeyError: 'db_password_encrypted'")
    end
  else
    match db_password data with
    | Some v => Returned v
    | None => Raised (OtherError "KeyError: 'db_password'")
    end.

Definition ensure_alias_for_client (cfg : Config) (settings : DjangoSettings)
  (net : Net) (now : Z) (client_id : option Z)
  (client_username : option string) (st : State) : outcome string * State :=
  match get_cached_client_db_info cfg net now client_id client_username st with
  | (Raised e, st1) => (Raised e, st1)
  | (Returned data, st1) =>
      let alias := alias data in
      if bool_decide (is_Some (settings_DATABASES st1 !! alias)) then
        (Returned alias, st1)
      else
        match choose_password cfg net data with
        | Raised e => (Raised e, st1)
        | Returned password =>
            match test_db_connection cfg net (db_name data) (db_user data)
                    password (db_host data) (db_port data) with
            | (false, err) =>
                (Raised (RuntimeError
                   ("DB connect failed: " +:+
                    match err with Some e => e | None => "None" end)), st1)
            | (true, _) =>
                let '(a, st2) :=
                  add_db_alias settings alias (db_name data) (db_user data)
                    password (db_host data) (db_port data) st1 in
                (Returned a, st2)
            end
        end
  end.

Definition refresh_alias_for_client (cfg : Config) (settings : DjangoSettings)
  (net : Net) (now : Z) (client_id : option Z)
  (client_username : option string) (st : State) : outcome string * State :=
  let st1 :=
    mkState (base.delete (cache_key client_id client_username) (cache st))
            (settings_DATABASES st) (connections_databases st) in
  match fetch_client_db_info cfg net client_id client_username with
  | Raised e => (Raised e, st1)
  | Returned data =>
      let st2 :=
        mkState (cache st1)
                (base.delete (alias data) (settings_DATABASES st1))
                (base.delete (alias data) (connections_databases st1)) in
      ensure_alias_for_client cfg settings net now client_id client_username st2
  end.

End Directory.

(** ** communicationapp/mixins.py: getting the alias ready *)
Module Ready.
Import Py Ext Directory.

(** What [_ensure_alias_ready] raises: the two REST framework exceptions
    of its own, or whatever escapes from the calls it makes. *)
Inductive ready_error : Type :=
| AuthenticationFailed (msg : string)
| APIException (msg : string)
| Propagated (e : exn).

(** [int(v)]; [parse] is [int] on a [str]. *)
Definition int_of (parse : string -> option Z) (v : JsonVal) : outcome Z :=
  match v with
  | JInt n => Returned n
  | JBool b => Returned (if b then 1 else 0)%Z
  | JStr s =>
      match parse s with
      | Some n => Returned n
      | None => Raised (ValueError ("invalid literal for int() with base 10: '"
                                    +:+ s +:+ "'"))
      end
  | JNull => Raised (OtherError "TypeError: int() argument must be a string or a number")
  end.

(** [alias not in settings.DATABASES]; the keys of the table are strings. *)
Definition not_registered (alias : JsonVal) (st : State) : bool :=
  match alias with
  | JStr a => negb (bool_decide (is_Some (settings_DATABASES st !! a)))
  | _ => true
  end.

(** [alias.split("_", 1)[1]] for an alias that starts with "client_". *)
Definition after_client_ (a : string) : string :=
  String.substring 7 (String.length a - 7) a.

(** The result of one of the three calls of [ensure_alias_for_client],
    whose value is dropped.  In the first call a truthy user name that is
    not a [str] enters the cache key and the URL through [str]. *)
Definition then_return (alias : JsonVal) (r : outcome string * State)
  : (ready_error + JsonVal) * State :=
  match r with
  | (Raised e, st') => (inl (Propagated e), st')
  | (Returned _, st') => (inr alias, st')
  end.

Definition _ensure_alias_ready (cfg : Config) (settings : DjangoSettings)
  (net : Net) (parse : string -> option Z) (now : Z)
  (tenant : option (gmap string JsonVal)) (st : State)
  : (ready_error + JsonVal) * State :=
  match tenant with
  | None => (inl (AuthenticationFailed "Tenant alias missing in token."), st)
  | Some t =>
      if bool_decide (t = ∅) then
        (inl (AuthenticationFailed "Tenant alias missing in token."), st)
      else
        match t !! "alias" with
        | None => (inl (AuthenticationFailed "Tenant alias missing in token."), st)
        | Some alias =>
            if not_registered alias st then
              if get_truthy (t !! "client_username") then
                then_return alias
                  (ensure_alias_for_client cfg settings net now None
                     (py_str <$> t !! "client_username") st)
              else if get_truthy (t !! "client_id") then
                match int_of parse (default JNull (t !! "client_id")) with
                | Raised e => (inl (Propagated e), st)
                | Returned n =>
                    then_return alias
                      (ensure_alias_for_client cfg settings net now (Some n)
                         None st)
                end
              else
                match alias with
                | JStr a =>
                    if startswith a "client_" then
                      match int_of parse (JStr (after_client_ a)) with
                      | Raised e => (inl (Propagated e), st)
                      | Returned n =>
                          then_return alias
                            (ensure_alias_for_client cfg settings net now
                               (Some n) None st)
                      end
                    else (inl (APIException "Unable to resolve tenant DB."), st)
                | _ =>
                    (inl (Propagated
                       (OtherError "AttributeError: no attribute 'startswith'")),
                     st)
                end
            else (inr alias, st)
        end
  end.

End Ready.

(** ** More sample data *)
Module Cases.
Import Py Ext.


(** The directory client set up with the sample key. *)
Definition sample_config : Directory.Config :=
  Directory.mkConfig "http://127.0.0.1:8000" "" 10 Sample.sample_key 5.

Definition sample_django : Directory.DjangoSettings :=
  Directory.mkDjangoSettings (Some 60%Z) None (Some "UTC").

(** What the accounts service says about client 42. *)
Definition reply_42 : gmap string Directory.JsonVal :=
  <["user_id" := Directory.JInt 42]>
    (<["db_name" := Directory.JStr "tenant42"]>
       (<["db_user" := Directory.JStr "app"]>
          (<["db_host" := Directory.JStr "db.internal"]>
             (<["db_port" := Directory.JInt 5432]>
                (<["db_password_encrypted"
                   := Directory.JStr (Sample.sample_key +:+ "s3cret")]> ∅))))).

(** A network in which the accounts service answers every request with
    [reply_42], or is unreachable when [up] is [false], and the database
    lets in whoever knows the password when [db_up] is [true]. *)
Definition sample_net (up db_up : bool) : Directory.Net :=
  Directory.mkNet Sample.sample_fernet
    (fun _ _ _ _ =>
       if up then inr (Directory.mkHttpReply 200 "" (Some reply_42))
       else inl "connection refused")
    (fun _ _ password _ _ _ =>
       if db_up then
         match password with
         | Directory.JStr "s3cret" => None
         | _ => Some "password authentication failed"
         end
       else Some "could not connect to server").

(** Only the "default" database is configured. *)
Definition fresh_state : Directory.State :=
  Directory.mkState ∅ {[ "default" := Directory.StaticEntry ]}
    {[ "default" := Directory.StaticEntry ]}.

(** The state after client 42 was looked up at time 1000. *)
Definition looked_up_state : Directory.State :=
  (Directory.get_cached_client_db_info sample_config (sample_net true true)
     1000 (Some 42%Z) None fresh_state).2.

(** The state after the alias of client 42 was registered at time 1000. *)
Definition registered_state : Directory.State :=
  (Directory.ensure_alias_for_client sample_config sample_django
     (sample_net true true) 1000 (Some 42%Z) None fresh_state).2.

(** A token whose alias is registered nowhere and cannot be resolved. *)
Definition stray_token : gmap string Directory.JsonVal :=
  {[ "alias" := Directory.JStr "tenant-x" ]}.

(** A token that names the alias "client_7" and the client id 42. *)
Definition mixed_token : gmap string Directory.JsonVal :=
  <["alias" := Directory.JStr "client_7"]>
    {[ "client_id" := Directory.JInt 42 ]}.

(** What [fetch_client_db_info] makes of [reply_42]. *)
Definition info_42 : Directory.ClientDbInfo :=
  Directory.mkClientDbInfo "client_42" "tenant42" "app" "db.internal" "5432"
    (Some (Directory.JStr (Sample.sample_key +:+ "s3cret"))) None.

End Cases.

(** * Properties *)

(** ** Python helpers *)
Section PyFacts.
Import Py.

Lemma truthy_nonempty s : truthy s = true <-> s ≠ "".
Proof. destruct s; simpl; split; congruence. Qed.

Lemma startswith_app p s : startswith (p +:+ s) p = true.
Proof.
  unfold startswith. induction p as [|a p IH]; simpl.
  - by destruct s.
  - destruct (Ascii.ascii_dec a a); [exact IH | congruence].
Qed.

Lemma eqb_default_false t : t ≠ "default" -> String.eqb t "default" = false.
Proof. intros H. by apply String.eqb_neq. Qed.

End PyFacts.

(** ** The router *)
Section RouterFacts.
Import Py Router.

Lemma tenant_apps_cases app :
  app ∈ tenant_apps -> app = "api" \/ app = "communicationapp".
Proof. unfold tenant_apps. rewrite !elem_of_union, !elem_of_singleton. tauto. Qed.

Lemma master_apps_cases app :
  app ∈ master_apps ->
  app = "auth" \/ app = "admin" \/ app = "contenttypes" \/
  app = "sessions" \/ app = "config" \/ app = "messages".
Proof. unfold master_apps. rewrite !elem_of_union, !elem_of_singleton. tauto. Qed.

Lemma tenant_not_master app :
  app ∈ tenant_apps -> in_set app master_apps = false.
Proof.
  intros H. apply bool_decide_eq_false. intros Hm.
  apply tenant_apps_cases in H. apply master_apps_cases in Hm.
  destruct H as [-> | ->]; intuition discriminate.
Qed.

Lemma tenant_not_postgres_main app :
  app ∈ tenant_apps -> in_set app postgres_main_apps = false.
Proof.
  intros H. apply bool_decide_eq_false. intros Hm.
  apply tenant_apps_cases in H. unfold postgres_main_apps in Hm.
  apply elem_of_singleton in Hm.
  destruct H as [-> | ->]; discriminate.
Qed.

Lemma in_set_true app s : app ∈ s -> in_set app s = true.
Proof. intros H. by apply bool_decide_eq_true. Qed.

(** Walk the precedence tests of the router down to the tenant branch. *)
Ltac to_tenant_branch H :=
  rewrite (tenant_not_master _ H), (tenant_not_postgres_main _ H),
    (in_set_true _ _ H).

(** For a tenant-scoped model and no hints, reading goes where
    [_get_tenant_db] says, and to "default" when it says nothing. *)
Lemma db_for_read_tenant_app m st :
  app_label m ∈ tenant_apps ->
  db_for_read m ∅ st =
    match get_current_tenant st with
    | Some t =>
        if truthy t && negb (String.eqb t "default")
        then "client_" +:+ t else "default"
    | None => "default"
    end.
Proof.
  intros H. unfold db_for_read; simpl.
  to_tenant_branch H.
  unfold _get_tenant_db.
  rewrite bool_decide_eq_false_2 by (intros Hne; by apply Hne).
  destruct (get_current_tenant st) as [t|]; [|done].
  destruct (truthy t && negb (String.eqb t "default")); done.
Qed.

Lemma api_is_tenant_app : "api" ∈ tenant_apps.
Proof. unfold tenant_apps. rewrite !elem_of_union, !elem_of_singleton. tauto. Qed.

Lemma config_is_master_app : "config" ∈ master_apps.
Proof. unfold master_apps. rewrite !elem_of_union, !elem_of_singleton. tauto. Qed.

(** C2, as the code has it: for a model of a tenant-scoped app and no
    hints, [db_for_read] returns "client_" followed by the ambient tenant
    when that tenant is bound to a non-empty value other than "default";
    it returns "default" when the tenant is unbound, bound to the empty
    string, or bound to "default". *)
Theorem db_for_read_tenant_scoped (m : Model) (st : TenantState) :
  app_label m ∈ tenant_apps ->
  (forall t, get_current_tenant st = Some t -> t ≠ "" -> t ≠ "default" ->
             db_for_read m ∅ st = "client_" +:+ t) /\
  (get_current_tenant st = None \/ get_current_tenant st = Some "" \/
   get_current_tenant st = Some "default" ->
   db_for_read m ∅ st = "default").
Proof.
  intros H. rewrite (db_for_read_tenant_app _ _ H). split.
  - intros t -> Hne Hd.
    apply truthy_nonempty in Hne. rewrite Hne, (eqb_default_false _ Hd). done.
  - intros [-> | [-> | ->]]; done.
Qed.

Lemma db_for_read_tenant_scoped_witness :
  db_for_read (mkModel "api") ∅ (set_current_tenant (Some "99") unbound)
    = "client_99" /\
  db_for_read (mkModel "api") ∅ unbound = "default".
Proof.
  split.
  - apply (proj1 (db_for_read_tenant_scoped (mkModel "api")
                    (set_current_tenant (Some "99") unbound)
                    api_is_tenant_app) "99"); [reflexivity | done | done].
  - apply (proj2 (db_for_read_tenant_scoped (mkModel "api") unbound
                    api_is_tenant_app)).
    left. reflexivity.
Defined.

(** C2 as stated fails: a tenant bound to the empty string is bound and is
    not "default", and the read still goes to "default". *)
Lemma db_for_read_bound_empty_counterexample :
  ~ (forall (m : Model) (st : TenantState) (t : string),
       app_label m ∈ tenant_apps ->
       get_current_tenant st = Some t -> t ≠ "default" ->
       db_for_read m ∅ st = "client_" +:+ t).
Proof.
  intros Hall.
  specialize (Hall (mkModel "api") (set_current_tenant (Some "") unbound) ""
                api_is_tenant_app eq_refl).
  rewrite (db_for_read_tenant_app (mkModel "api") _ api_is_tenant_app) in Hall.
  simpl in Hall. specialize (Hall ltac:(discriminate)). discriminate.
Qed.

(** C3: a model of a master app is read from and written to "default",
    whatever hints are passed and whatever tenant is bound. *)
Theorem master_apps_use_default (m : Model) (hints : Hints) (st : TenantState) :
  app_label m ∈ master_apps ->
  db_for_read m hints st = "default" /\ db_for_write m hints st = "default".
Proof.
  intros H. unfold db_for_read, db_for_write; simpl.
  rewrite (in_set_true _ _ H). done.
Qed.

Lemma master_apps_use_default_witness :
  db_for_read (mkModel "config") (<["tenant_db" := "client_5"]> ∅)
    (set_current_tenant (Some "99") unbound) = "default" /\
  db_for_write (mkModel "config") (<["tenant_db" := "client_5"]> ∅)
    (set_current_tenant (Some "99") unbound) = "default".
Proof. apply master_apps_use_default. exact config_is_master_app. Defined.

(** C4: for a tenant-scoped app label [allow_migrate] refuses "default",
    and it allows a database only if its alias starts with "client_". *)
Theorem allow_migrate_tenant_app (app : string) :
  app ∈ tenant_apps ->
  allow_migrate "default" app = false /\
  (forall db, allow_migrate db app = true -> startswith db "client_" = true).
Proof.
  intros H. unfold allow_migrate.
  to_tenant_branch H.
  split; [reflexivity |].
  intros db. destruct (String.eqb db "default"); [discriminate | done].
Qed.

Lemma allow_migrate_tenant_app_witness :
  allow_migrate "default" "api" = false /\
  (forall db, allow_migrate db "api" = true -> startswith db "client_" = true).
Proof. apply allow_migrate_tenant_app. exact api_is_tenant_app. Defined.

(** For a tenant-scoped app the answer of [allow_migrate] is exactly the
    prefix test. *)
Lemma allow_migrate_tenant_app_iff app db :
  app ∈ tenant_apps -> allow_migrate db app = startswith db "client_".
Proof.
  intros H. unfold allow_migrate.
  to_tenant_branch H.
  destruct (String.eqb_spec db "default") as [-> | _]; reflexivity.
Qed.

(** C9: for every model, every hints and every tenant state, [db_for_read]
    and [db_for_write] return the same alias. *)
Theorem db_for_read_eq_db_for_write (m : Model) (hints : Hints)
  (st : TenantState) :
  db_for_read m hints st = db_for_write m hints st.
Proof. unfold db_for_read, db_for_write. reflexivity. Qed.

End RouterFacts.

(** ** The tenant binding around a request *)
Section TenantContextFacts.
Import Py Router Middleware Mixins.

Lemma get_after_set v st : get_current_tenant (set_current_tenant v st) = v.
Proof. by destruct v. Qed.

(** What [process_request] binds is never empty. *)
Lemma extract_tenant_id_nonempty request : extract_tenant_id request ≠ "".
Proof.
  unfold extract_tenant_id, or_, truthy_opt.
  destruct (headers request !! "X-Tenant") as [[|a s]|];
    destruct (GET request !! "tenant") as [[|b t]|];
    destruct (META request !! "HTTP_X_TENANT") as [[|c u]|]; simpl; discriminate.
Qed.

Lemma process_request_binds request st :
  get_current_tenant (process_request request st).2
    = Some (extract_tenant_id request).
Proof. unfold process_request. simpl. apply get_after_set. Qed.

(** When the rest of the chain returns, the middleware leaves no tenant
    bound. *)
Lemma call_clears_on_return handler request st response st' :
  __call__ (Some handler) request st = (Returned response, st') ->
  get_current_tenant st' = None.
Proof.
  unfold __call__. destruct (process_request request st) as [request1 st1].
  destruct (handler request1 st1) as [[resp | e] st2]; simpl; intros H.
  - injection H as _ <-. apply get_after_set.
  - discriminate.
Qed.

(** The mixin clears the binding on both exits of the parent's
    [finalize_response]. *)
Lemma finalize_response_clears super_finalize_response request response st :
  get_current_tenant
    (finalize_response super_finalize_response request response st).2 = None.
Proof.
  unfold finalize_response.
  destruct (super_finalize_response response request st) as [result st1].
  simpl. apply get_after_set.
Qed.

(** C8 at the failing input: when the rest of the chain raises and leaves
    the binding alone, [TenantMiddleware.__call__] lets the error through
    without running [process_response], and the tenant taken from the
    request stays bound afterwards. *)
Theorem call_keeps_binding_on_raise (handler : Handler)
  (request : HttpRequest) (st : TenantState) (e : exn) :
  (forall r s, handler r s = (Raised e, s)) ->
  (__call__ (Some handler) request st).1 = Raised e /\
  get_current_tenant (__call__ (Some handler) request st).2
    = Some (extract_tenant_id request) /\
  get_current_tenant (__call__ (Some handler) request st).2 ≠ None.
Proof.
  intros Hraise. unfold __call__.
  pose proof (process_request_binds request st) as Hb.
  destruct (process_request request st) as [request1 st1].
  rewrite Hraise. simpl in *. rewrite Hb. repeat split. discriminate.
Qed.

Lemma call_keeps_binding_on_raise_witness :
  get_current_tenant
    (__call__ (Some (fun _ s => (Raised (RuntimeError "view failed"), s)))
       (mkHttpRequest (<["X-Tenant" := "42"]> ∅) ∅ ∅ None None) unbound).2
  = Some "42".
Proof.
  exact (proj1 (proj2 (call_keeps_binding_on_raise
           (fun _ s => (Raised (RuntimeError "view failed"), s))
           (mkHttpRequest (<["X-Tenant" := "42"]> ∅) ∅ ∅ None None) unbound
           (RuntimeError "view failed") (fun _ _ => eq_refl)))).
Defined.

End TenantContextFacts.

(** ** Soft delete *)
Section SoftDeleteFacts.
Import Py Models.

Lemma delete_table self now tbl :
  (delete self now tbl).2 =
    match pk self with
    | Some k =>
        match rows tbl !! k with
        | Some row =>
            mkTable (<[k := set_deleted true (Some now) row]> (rows tbl))
                    (next_id tbl)
        | None => tbl
        end
    | None => tbl
    end.
Proof.
  unfold delete, save_deleted_fields. simpl.
  destruct (pk self) as [k|]; [|done].
  destruct (rows tbl !! k); done.
Qed.

(** [delete] never changes which primary keys the table holds. *)
Lemma delete_keeps_dom self now tbl :
  dom (rows (delete self now tbl).2) = dom (rows tbl).
Proof.
  rewrite delete_table.
  destruct (pk self) as [k|]; [|done].
  destruct (rows tbl !! k) as [row|] eqn:E; [|done].
  simpl. rewrite dom_insert_L.
  assert (k ∈ dom (rows tbl)) as Hk by (apply elem_of_dom; eauto).
  apply set_eq. intros j. rewrite elem_of_union, elem_of_singleton.
  split; [intros [-> | Hj]; assumption | auto].
Qed.

(** C10: [delete] on a stored [UserDatabase] record returns normally and
    keeps the row; in the row it sets [is_deleted] to [True] and
    [deleted_at] to the current time and leaves every other column as it
    was; the other rows and the set of primary keys are unchanged; after
    [hard_delete] the row is gone. *)
Theorem soft_delete_keeps_row (self : Instance) (now : Z) (tbl : Table)
  (k : Z) (row : UserDatabase) :
  pk self = Some k ->
  rows tbl !! k = Some row ->
  (delete self now tbl).1.1 = Returned tt /\
  (exists row',
     rows (delete self now tbl).2 !! k = Some row' /\
     is_deleted row' = true /\ deleted_at row' = Some now /\
     user_id row' = user_id row /\ username row' = username row /\
     db_name row' = db_name row /\ db_user row' = db_user row /\
     db_password row' = db_password row /\ db_host row' = db_host row /\
     db_port row' = db_port row /\ db_type row' = db_type row) /\
  (forall j, j ≠ k -> rows (delete self now tbl).2 !! j = rows tbl !! j) /\
  dom (rows (delete self now tbl).2) = dom (rows tbl) /\
  rows (hard_delete self tbl).2 !! k = None.
Proof.
  intros Hpk Hrow. split; [|split; [|split; [|split]]].
  - unfold delete, save_deleted_fields. simpl. rewrite Hpk, Hrow. done.
  - rewrite delete_table, Hpk, Hrow. simpl.
    exists (set_deleted true (Some now) row).
    rewrite lookup_insert_eq. repeat split.
  - intros j Hj. rewrite delete_table, Hpk, Hrow. simpl.
    by rewrite lookup_insert_ne.
  - apply delete_keeps_dom.
  - unfold hard_delete. rewrite Hpk. simpl. apply lookup_delete_eq.
Qed.

Lemma soft_delete_keeps_row_witness :
  (delete Sample.sample_instance 1000 Sample.sample_table).1.1 = Returned tt /\
  dom (rows (delete Sample.sample_instance 1000 Sample.sample_table).2)
    = dom (rows Sample.sample_table) /\
  rows (hard_delete Sample.sample_instance Sample.sample_table).2 !! 1%Z = None.
Proof.
  pose proof (soft_delete_keeps_row Sample.sample_instance 1000
                Sample.sample_table 1 Sample.sample_row eq_refl
                (lookup_insert_eq _ _ _)) as H.
  split; [exact (proj1 H) |].
  split; [exact (proj1 (proj2 (proj2 (proj2 H)))) |].
  exact (proj2 (proj2 (proj2 (proj2 H)))).
Defined.

End SoftDeleteFacts.

(** ** Passwords *)
Section VaultFacts.
Import Py Ext.

Lemma prefix_append k m : String.prefix k (k +:+ m) = true.
Proof.
  induction k as [|a k IH]; simpl.
  - by destruct m.
  - destruct (Ascii.ascii_dec a a); [exact IH | congruence].
Qed.

Lemma substring_whole m : String.substring 0 (String.length m) m = m.
Proof. induction m as [|a m IH]; simpl; [done | by rewrite IH]. Qed.

Lemma substring_after_prefix k m :
  String.substring (String.length k)
    (String.length (k +:+ m) - String.length k) (k +:+ m) = m.
Proof.
  induction k as [|a k IH]; simpl.
  - rewrite Nat.sub_0_r. apply substring_whole.
  - exact IH.
Qed.

(** The stand-in obeys the law of the library. *)
Lemma sample_fernet_correct : fernet_correct Sample.sample_fernet.
Proof.
  intros key iv msg _. simpl.
  rewrite prefix_append. f_equal. apply substring_after_prefix.
Qed.

(** Whenever the [try] of [ApiUtils.decrypt_password] raises, the function
    returns its argument. *)
Lemma api_decrypt_swallows env settings c e :
  ApiUtils.decrypt_password_try env settings c = Raised e ->
  ApiUtils.decrypt_password env settings c = c.
Proof. unfold ApiUtils.decrypt_password. by intros ->. Qed.

(** C5 at the failing input: with a valid primary key configured and a
    ciphertext that Fernet rejects, [decrypt_password] of api/utils.py
    returns the ciphertext itself, while [decrypt_password] of
    communicationapp/utils.py raises on the same input. *)
Theorem api_decrypt_returns_ciphertext (env : Externals) (settings : Settings)
  (key c : string) :
  DB_ENCRYPTION_KEY settings = Some key ->
  truthy key = true ->
  key_ok (fernet env) key = true ->
  fernet_decrypt (fernet env) key c = None ->
  ApiUtils.decrypt_password env settings c = c /\
  is_raised (CommUtils.decrypt_password (fernet env) key c) = true.
Proof.
  intros Hkey Ht Hok Hbad. split.
  - apply (api_decrypt_swallows _ _ _ InvalidToken).
    unfold ApiUtils.decrypt_password_try, new_fernet, decrypt_token.
    by rewrite Hkey, Ht, Hok, Hbad.
  - unfold CommUtils.decrypt_password, new_fernet, decrypt_token.
    by rewrite Ht, Hok, Hbad.
Qed.

Lemma api_decrypt_returns_ciphertext_witness :
  ApiUtils.decrypt_password (Sample.sample_env true) Sample.sample_settings
    "not-a-token" = "not-a-token" /\
  is_raised (CommUtils.decrypt_password Sample.sample_fernet Sample.sample_key
               "not-a-token") = true.
Proof.
  apply (api_decrypt_returns_ciphertext (Sample.sample_env true)
           Sample.sample_settings Sample.sample_key "not-a-token");
    reflexivity.
Defined.

Section Roundtrip.
Context (env : Externals) (settings : Settings).
Hypothesis fernet_law : fernet_correct (fernet env).
Hypothesis key_configured : truthy_opt (DB_ENCRYPTION_KEY settings) = true.

(** The round trip holds for every password once the primary key is
    configured: with a key Fernet accepts by the law of the library, with a
    key it refuses because both functions then return their argument. *)
Lemma roundtrip_any_password p :
  ApiUtils.decrypt_password env settings
    (ApiUtils.encrypt_password env settings p) = p.
Proof.
  destruct (DB_ENCRYPTION_KEY settings) as [key|] eqn:E; [|discriminate].
  simpl in key_configured.
  unfold ApiUtils.decrypt_password, ApiUtils.decrypt_password_try,
    ApiUtils.encrypt_password, ApiUtils.encrypt_password_try,
    ApiUtils.get_encryption_key, new_fernet, decrypt_token.
  rewrite E, key_configured.
  destruct (key_ok (fernet env) key) eqn:Hok.
  - by rewrite (fernet_law key _ p Hok).
  - done.
Qed.

(** C6: with the primary key configured, [decrypt_password] undoes
    [encrypt_password] on every non-empty password. *)
Theorem encrypt_decrypt_roundtrip (p : string) :
  p ≠ "" ->
  ApiUtils.decrypt_password env settings
    (ApiUtils.encrypt_password env settings p) = p.
Proof. intros _. apply roundtrip_any_password. Qed.

End Roundtrip.

Lemma encrypt_decrypt_roundtrip_witness :
  ApiUtils.decrypt_password (Sample.sample_env true) Sample.sample_settings
    (ApiUtils.encrypt_password (Sample.sample_env true) Sample.sample_settings
       "s3cret") = "s3cret".
Proof.
  apply (encrypt_decrypt_roundtrip (Sample.sample_env true)
           Sample.sample_settings sample_fernet_correct eq_refl "s3cret").
  discriminate.
Defined.

(** The sample token is not the password itself: the round trip above
    goes through the cipher. *)
Example sample_token_differs :
  ApiUtils.encrypt_password (Sample.sample_env true) Sample.sample_settings
    "s3cret" ≠ "s3cret".
Proof. vm_compute. discriminate. Qed.

End VaultFacts.

(** ** Registration *)
Section RegistrationFacts.
Import Py Ext Serializers Views.

Lemma exists_user_id_true uid tbl k row :
  Models.rows tbl !! k = Some row -> Models.user_id row = uid ->
  Models.exists_user_id uid tbl = true.
Proof.
  intros Hk Hu. apply bool_decide_eq_true. exists k, row. done.
Qed.

(** A valid payload for a tenant id that has a record is answered by the
    duplicate response and nothing is written. *)
Lemma post_when_exists env run_fields settings now data d w :
  is_valid env run_fields data = inr d ->
  Models.exists_user_id (user_id d) (table w) = true ->
  post env run_fields settings now data w
    = (Returned (duplicate_response (user_id d)), w).
Proof. intros Hv Hex. unfold post. rewrite Hv. simpl. by rewrite Hex. Qed.

(** C7: a registration for a tenant id that already has a record is
    answered with the duplicate error (status 400), and the table, the
    settings and the connection table are exactly as before. *)
Theorem duplicate_registration_rejected (env : Externals)
  (run_fields : FieldValidation) (settings : Settings) (now : Z)
  (data : RequestData) (d : ValidatedData) (w : World)
  (k : Z) (row : Models.UserDatabase) :
  is_valid env run_fields data = inr d ->
  Models.rows (table w) !! k = Some row ->
  Models.user_id row = user_id d ->
  post env run_fields settings now data w
    = (Returned (duplicate_response (user_id d)), w).
Proof.
  intros Hv Hk Hu. apply post_when_exists; [done |].
  by apply (exists_user_id_true _ _ k row).
Qed.

Lemma duplicate_registration_rejected_witness :
  post (Sample.sample_env true) Sample.sample_fields Sample.sample_settings
    1000 Sample.sample_payload Sample.registered_world
  = (Returned (duplicate_response 7), Sample.registered_world).
Proof.
  apply (duplicate_registration_rejected (Sample.sample_env true)
           Sample.sample_fields Sample.sample_settings 1000
           Sample.sample_payload Sample.sample_validated
           Sample.registered_world 1 Sample.sample_row).
  - vm_compute. reflexivity.
  - apply lookup_insert_eq.
  - reflexivity.
Defined.

(** The clean-up, run on the state right after [create]. *)
Lemma post_except_after_create e r tbl now db_alias S C :
  post_except e (Models.mkInstance (Some (Models.next_id tbl)) r) now db_alias
    (mkWorld (Models.mkTable (<[Models.next_id tbl := r]> (Models.rows tbl))
                (Models.next_id tbl + 1)) S C)
  = (Returned (mkResponse HTTP_500_INTERNAL_SERVER_ERROR
                 ("Migration failed: " +:+ exn_message e) None),
     mkWorld (Models.mkTable
                (<[Models.next_id tbl := Models.set_deleted true (Some now) r]>
                   (Models.rows tbl))
                (Models.next_id tbl + 1))
       (base.delete db_alias S) (base.delete db_alias C)).
Proof.
  unfold post_except, Models.delete, Models.save_deleted_fields. simpl.
  rewrite lookup_insert_eq. simpl. by rewrite insert_insert_eq.
Qed.

(** [add_db_alias] and the whole [try] block leave the table alone. *)
Lemma post_try_table env settings d db_alias real_pw w :
  table (post_try env settings d db_alias real_pw w).2 = table w.
Proof.
  unfold post_try, ApiUtils.add_db_alias.
  destruct (py_int env (db_port d)); [|done]. simpl.
  destruct (call_command_migrate env db_alias _); [|done].
  destruct (call_command_showmigrations env db_alias); done.
Qed.

(** Close a branch of [post] whose response [Hpost] does not carry the
    status that [Hst] asks for. *)
Ltac other_status Hpost Hst :=
  injection Hpost as <- _; simpl in Hst; discriminate Hst.

(** C1 at the failing input: whenever a valid registration is answered
    with status 500 (the alias set-up or the migration failed after the
    record was inserted), the alias is gone from the settings and from the
    connection table, but the table still holds a record for the tenant id,
    flagged as deleted, and the same registration submitted again is
    rejected as a duplicate. *)
Theorem failed_migration_leaves_record (env : Externals)
  (run_fields : FieldValidation) (settings : Settings) (now : Z)
  (data : RequestData) (d : ValidatedData) (w w' : World) (resp : Response) :
  is_valid env run_fields data = inr d ->
  post env run_fields settings now data w = (Returned resp, w') ->
  status resp = HTTP_500_INTERNAL_SERVER_ERROR ->
  settings_DATABASES w' !! ("client_" +:+ pretty (user_id d)) = None /\
  connections_databases w' !! ("client_" +:+ pretty (user_id d)) = None /\
  (exists k row,
     Models.rows (table w') !! k = Some row /\
     Models.user_id row = user_id d /\ Models.is_deleted row = true) /\
  post env run_fields settings now data w'
    = (Returned (duplicate_response (user_id d)), w').
Proof.
  intros Hv Hpost Hst.
  assert (exists S C r,
    w' = mkWorld (Models.mkTable
                    (<[Models.next_id (table w)
                       := Models.set_deleted true (Some now) r]>
                       (Models.rows (table w)))
                    (Models.next_id (table w) + 1))
           (base.delete ("client_" +:+ pretty (user_id d)) S)
           (base.delete ("client_" +:+ pretty (user_id d)) C) /\
    Models.user_id r = user_id d) as (S & C & r & -> & Hr).
  { unfold post in Hpost. rewrite Hv in Hpost. simpl in Hpost.
    destruct (Models.exists_user_id (user_id d) (table w));
      [other_status Hpost Hst |].
    destruct (gethostbyname env (db_host d)); [| other_status Hpost Hst].
    destruct (ApiUtils.test_db_connection _ _ _ _ _ _) as [[|] err];
      simpl in Hpost; [| other_status Hpost Hst].
    destruct (bool_decide _); [other_status Hpost Hst |].
    unfold Models.create in Hpost.
    destruct (Models.username_clash _ _); simpl in Hpost; [discriminate |].
    unfold post_try, ApiUtils.add_db_alias in Hpost.
    destruct (py_int env (db_port d)); simpl in Hpost.
    - destruct (call_command_migrate env _ _).
      + destruct (call_command_showmigrations env _); other_status Hpost Hst.
      + rewrite post_except_after_create in Hpost.
        injection Hpost as _ <-. eexists _, _, _. split; reflexivity.
    - rewrite post_except_after_create in Hpost.
      injection Hpost as _ <-. eexists _, _, _. split; reflexivity. }
  simpl. rewrite !lookup_delete_eq.
  assert (Models.exists_user_id (user_id d)
            (Models.mkTable
               (<[Models.next_id (table w)
                  := Models.set_deleted true (Some now) r]>
                  (Models.rows (table w)))
               (Models.next_id (table w) + 1)) = true) as Hex.
  { apply (exists_user_id_true _ _ (Models.next_id (table w))
             (Models.set_deleted true (Some now) r)); [|exact Hr].
    simpl. apply lookup_insert_eq. }
  split; [done |]. split; [done |]. split.
  - exists (Models.next_id (table w)), (Models.set_deleted true (Some now) r).
    simpl. rewrite lookup_insert_eq. done.
  - by apply post_when_exists.
Qed.

Lemma failed_migration_leaves_record_witness :
  settings_DATABASES Sample.failed_world !! "client_7" = None /\
  connections_databases Sample.failed_world !! "client_7" = None /\
  (exists k row,
     Models.rows (table Sample.failed_world) !! k = Some row /\
     Models.user_id row = 7%Z /\ Models.is_deleted row = true) /\
  post (Sample.sample_env false) Sample.sample_fields Sample.sample_settings
    1000 Sample.sample_payload Sample.failed_world
  = (Returned (duplicate_response 7), Sample.failed_world).
Proof.
  apply (failed_migration_leaves_record (Sample.sample_env false)
           Sample.sample_fields Sample.sample_settings 1000
           Sample.sample_payload Sample.sample_validated Sample.empty_world
           Sample.failed_world
           (mkResponse HTTP_500_INTERNAL_SERVER_ERROR
              "Migration failed: relation already exists" None)).
  - vm_compute. reflexivity.
  - vm_compute. reflexivity.
  - reflexivity.
Defined.

(** The same registration goes through when the migration succeeds, and
    then the alias is registered. *)
Example registration_succeeds :
  (post (Sample.sample_env true) Sample.sample_fields Sample.sample_settings
     1000 Sample.sample_payload Sample.empty_world).1
  = Returned (mkResponse HTTP_201_CREATED
                "DB registered and API tables migrated." (Some "client_7")).
Proof. vm_compute. reflexivity. Qed.

End RegistrationFacts.

(** ** More on the router *)
Section RouterMore.
Import Py Router.

Lemma not_tenant_app app : app ∉ tenant_apps -> in_set app tenant_apps = false.
Proof. intros H. by apply bool_decide_eq_false. Qed.

Lemma in_set_cases app s : in_set app s = true \/ in_set app s = false.
Proof. destruct (in_set app s); auto. Qed.

(** [allow_relation] says yes exactly when the router reads both models
    from the same database: its second test can only succeed where the
    first one has. *)
Theorem allow_relation_iff_same_db (obj1 obj2 : Model) (hints : Hints)
  (st : TenantState) :
  allow_relation obj1 obj2 hints st = true <->
  db_for_read obj1 hints st = db_for_read obj2 hints st.
Proof.
  unfold allow_relation.
  destruct (String.eqb_spec (db_for_read obj1 hints st)
              (db_for_read obj2 hints st)) as [E | N]; [tauto |].
  destruct (String.eqb_spec (db_for_read obj1 hints st) "default") as [E1 | N1];
    destruct (String.eqb_spec (db_for_read obj2 hints st) "default") as [E2 | N2];
    simpl; split; intros H; try discriminate; try contradiction; congruence.
Qed.

(** Outside the tenant-scoped apps neither the hints nor the ambient tenant
    have any say: reads and writes go where they go with no hints and no
    tenant bound. *)
Theorem non_tenant_apps_ignore_context (m : Model) (hints : Hints)
  (st : TenantState) :
  app_label m ∉ tenant_apps ->
  db_for_read m hints st = db_for_read m ∅ unbound /\
  db_for_write m hints st = db_for_write m ∅ unbound.
Proof.
  intros H. unfold db_for_read, db_for_write; simpl.
  rewrite (not_tenant_app _ H).
  destruct (in_set (app_label m) master_apps); [done |].
  destruct (in_set (app_label m) postgres_main_apps); done.
Qed.

Lemma non_tenant_apps_ignore_context_witness :
  db_for_read (mkModel "databases") (<["tenant_db" := "client_5"]> ∅)
    (set_current_tenant (Some "99") unbound)
  = db_for_read (mkModel "databases") ∅ unbound.
Proof.
  apply (proj1 (non_tenant_apps_ignore_context (mkModel "databases")
                  (<["tenant_db" := "client_5"]> ∅)
                  (set_current_tenant (Some "99") unbound)
                  ltac:(simpl; intros H; apply tenant_apps_cases in H;
                        destruct H; discriminate))).
Defined.

(** For a tenant-scoped model a non-empty [tenant_db] hint wins over the
    ambient tenant, for reads and for writes. *)
Theorem tenant_db_hint_wins (m : Model) (hints : Hints) (st : TenantState)
  (db : string) :
  app_label m ∈ tenant_apps ->
  hints !! "tenant_db" = Some db ->
  db ≠ "" ->
  db_for_read m hints st = db /\ db_for_write m hints st = db.
Proof.
  intros H Hh Hne. apply truthy_nonempty in Hne.
  assert (bool_decide (hints ≠ ∅) = true) as Hnonempty.
  { apply bool_decide_eq_true. intros ->. by rewrite lookup_empty in Hh. }
  unfold db_for_read, db_for_write, _get_tenant_db; simpl.
  rewrite (tenant_not_master _ H), (tenant_not_postgres_main _ H),
    (in_set_true _ _ H), Hnonempty, Hh, Hne. simpl. by rewrite Hne.
Qed.

Lemma tenant_db_hint_wins_witness :
  db_for_read (mkModel "api") (<["tenant_db" := "client_5"]> ∅)
    (set_current_tenant (Some "99") unbound) = "client_5" /\
  db_for_write (mkModel "api") (<["tenant_db" := "client_5"]> ∅)
    (set_current_tenant (Some "99") unbound) = "client_5".
Proof.
  apply (tenant_db_hint_wins (mkModel "api") (<["tenant_db" := "client_5"]> ∅)
           (set_current_tenant (Some "99") unbound) "client_5"
           api_is_tenant_app (lookup_insert_eq _ _ _)).
  discriminate.
Defined.

(** Outside the tenant-scoped apps, a migration is allowed on a database
    exactly when the router sends the writes of the app to it. *)
Theorem allow_migrate_follows_routing (app db : string) (hints : Hints)
  (st : TenantState) :
  app ∉ tenant_apps ->
  (allow_migrate db app = true <-> db = db_for_write (mkModel app) hints st).
Proof.
  intros H. unfold allow_migrate, db_for_write; simpl.
  rewrite (not_tenant_app _ H).
  destruct (in_set app master_apps); [apply String.eqb_eq |].
  destruct (in_set app postgres_main_apps); apply String.eqb_eq.
Qed.

Lemma allow_migrate_follows_routing_witness :
  allow_migrate "postgres_main" "databases" = true <->
  "postgres_main" = db_for_write (mkModel "databases") ∅ unbound.
Proof.
  apply (allow_migrate_follows_routing "databases" "postgres_main" ∅ unbound).
  intros H. apply tenant_apps_cases in H. destruct H; discriminate.
Defined.

(** For a tenant-scoped model and no hints, the database the router picks
    for writes accepts the migrations of the app exactly when a non-empty
    tenant other than "default" is bound; with the fallback to "default"
    the writes go to a database the app may not be migrated on. *)
Theorem tenant_writes_migratable_iff_bound (m : Model) (st : TenantState) :
  app_label m ∈ tenant_apps ->
  (allow_migrate (db_for_write m ∅ st) (app_label m) = true <->
   exists t, get_current_tenant st = Some t /\ t ≠ "" /\ t ≠ "default").
Proof.
  intros H. rewrite (allow_migrate_tenant_app_iff _ _ H).
  replace (db_for_write m ∅ st) with (db_for_read m ∅ st) by reflexivity.
  rewrite (db_for_read_tenant_app _ _ H).
  destruct (get_current_tenant st) as [t|].
  - destruct (truthy t) eqn:Ht;
      destruct (String.eqb_spec t "default") as [E | N]; simpl.
    + split; [by vm_compute | intros (t' & [= <-] & _ & Hd); done].
    + split; [| intros _; apply (startswith_app "client_")].
      intros _. exists t. by apply truthy_nonempty in Ht.
    + split; [by vm_compute | intros (t' & [= <-] & _ & Hd); done].
    + split; [by vm_compute |].
      intros (t' & [= <-] & Hne & _). apply truthy_nonempty in Hne. congruence.
  - split; [by vm_compute | intros (t' & Hn & _); discriminate].
Qed.

Lemma tenant_writes_migratable_iff_bound_witness :
  allow_migrate (db_for_write (mkModel "api") ∅ unbound) "api" = true <->
  exists t, get_current_tenant unbound = Some t /\ t ≠ "" /\ t ≠ "default".
Proof.
  exact (tenant_writes_migratable_iff_bound (mkModel "api") unbound
           api_is_tenant_app).
Defined.

End RouterMore.

(** ** More on the middleware and the mixin *)
Section MiddlewareMore.
Import Py Router Middleware Mixins.

(** The tenant is taken from the first of the [X-Tenant] header, the
    [tenant] query parameter and [HTTP_X_TENANT] that is present and not
    empty, and it is "default" when there is none. *)
Theorem extract_tenant_id_precedence (request : HttpRequest) :
  (forall h, headers request !! "X-Tenant" = Some h -> h ≠ "" ->
             extract_tenant_id request = h) /\
  (truthy_opt (headers request !! "X-Tenant") = false ->
   forall q, GET request !! "tenant" = Some q -> q ≠ "" ->
             extract_tenant_id request = q) /\
  (truthy_opt (headers request !! "X-Tenant") = false ->
   truthy_opt (GET request !! "tenant") = false ->
   forall x, META request !! "HTTP_X_TENANT" = Some x -> x ≠ "" ->
             extract_tenant_id request = x) /\
  (truthy_opt (headers request !! "X-Tenant") = false ->
   truthy_opt (GET request !! "tenant") = false ->
   truthy_opt (META request !! "HTTP_X_TENANT") = false ->
   extract_tenant_id request = "default").
Proof.
  unfold extract_tenant_id, or_. repeat split.
  - intros h -> Hh. apply truthy_nonempty in Hh.
    do 3 (simpl; rewrite ?Hh). done.
  - intros -> q -> Hq. apply truthy_nonempty in Hq.
    do 3 (simpl; rewrite ?Hq). done.
  - intros -> -> x -> Hx. apply truthy_nonempty in Hx.
    do 3 (simpl; rewrite ?Hx). done.
  - intros -> -> ->. done.
Qed.

(** What [process_request] stores in [request.tenant_db] is the database
    the router then picks for a tenant-scoped model. *)
Theorem process_request_agrees_with_router (request : HttpRequest)
  (st : TenantState) (m : Model) :
  app_label m ∈ tenant_apps ->
  tenant_db (process_request request st).1
  = Some (db_for_read m ∅ (process_request request st).2).
Proof.
  intros H. rewrite (db_for_read_tenant_app _ _ H), process_request_binds.
  unfold process_request. simpl.
  pose proof (extract_tenant_id_nonempty request) as Hne.
  apply truthy_nonempty in Hne. rewrite Hne. done.
Qed.

Lemma process_request_agrees_with_router_witness :
  tenant_db (process_request
               (mkHttpRequest ∅ (<["tenant" := "42"]> ∅) ∅ None None) unbound).1
  = Some (db_for_read (mkModel "api") ∅
            (process_request
               (mkHttpRequest ∅ (<["tenant" := "42"]> ∅) ∅ None None)
               unbound).2).
Proof.
  exact (process_request_agrees_with_router
           (mkHttpRequest ∅ (<["tenant" := "42"]> ∅) ∅ None None) unbound
           (mkModel "api") api_is_tenant_app).
Defined.

(** When the rest of the chain returns, [__call__] hands back that very
    response and no tenant is bound afterwards, whatever the chain did to
    the binding. *)
Theorem call_returns_and_clears (handler : Handler) (request : HttpRequest)
  (st st' : TenantState) (result : option HttpResponse) :
  __call__ (Some handler) request st = (Returned result, st') ->
  exists response st2,
    result = Some response /\
    handler (process_request request st).1 (process_request request st).2
      = (Returned response, st2) /\
    get_current_tenant st' = None.
Proof.
  unfold __call__. destruct (process_request request st) as [request1 st1].
  simpl. destruct (handler request1 st1) as [[resp | e] st2]; simpl; intros H.
  - injection H as <- <-. exists resp, st2.
    split; [done |]. split; [done | apply get_after_set].
  - discriminate.
Qed.

Lemma call_returns_and_clears_witness :
  exists response st2,
    Some (mkHttpResponse 200 "ok") = Some response /\
    (fun (_ : HttpRequest) (s : TenantState) =>
       (Returned (mkHttpResponse 200 "ok"), s))
      (process_request
         (mkHttpRequest (<["X-Tenant" := "42"]> ∅) ∅ ∅ None None) unbound).1
      (process_request
         (mkHttpRequest (<["X-Tenant" := "42"]> ∅) ∅ ∅ None None) unbound).2
      = (Returned response, st2) /\
    get_current_tenant (set_current_tenant None unbound) = None.
Proof.
  exact (call_returns_and_clears
           (fun _ s => (Returned (mkHttpResponse 200 "ok"), s))
           (mkHttpRequest (<["X-Tenant" := "42"]> ∅) ∅ ∅ None None) unbound
           (set_current_tenant None unbound)
           (Some (mkHttpResponse 200 "ok")) eq_refl).
Defined.

(** The mixin's [finalize_response] gives the outcome of the parent's
    method, response or error, and on both exits no tenant is bound
    afterwards. *)
Theorem finalize_response_outcome_and_clear
  (super_finalize_response : HttpResponse -> Handler)
  (request : HttpRequest) (response : HttpResponse) (st : TenantState) :
  (finalize_response super_finalize_response request response st).1
  = (super_finalize_response response request st).1 /\
  get_current_tenant
    (finalize_response super_finalize_response request response st).2 = None.
Proof.
  unfold finalize_response.
  destruct (super_finalize_response response request st) as [result st1].
  simpl. split; [done | apply get_after_set].
Qed.

End MiddlewareMore.

(** ** More on the records and the passwords *)
Section ModelsMore.
Import Py Models.

(** A soft-deleted record keeps its user name taken: after [delete], a
    [create] with the same name, in any letter case, is refused by the
    uniqueness rules and writes nothing. *)
Theorem soft_delete_keeps_username_taken (self : Instance) (now : Z)
  (tbl : Table) (k : Z) (row r : UserDatabase) (n n' : string) :
  pk self = Some k ->
  rows tbl !! k = Some row ->
  username row = Some n ->
  username r = Some n' ->
  lower n' = lower n ->
  is_raised (create r (delete self now tbl).2).1 = true /\
  (create r (delete self now tbl).2).2 = (delete self now tbl).2.
Proof.
  intros Hpk Hrow Hn Hn' Hl.
  rewrite delete_table, Hpk, Hrow. unfold create.
  assert (username_clash (username r)
            (mkTable (<[k := set_deleted true (Some now) row]> (rows tbl))
                     (next_id tbl)) = true) as ->; [| done].
  rewrite Hn'. apply bool_decide_eq_true.
  exists k, (set_deleted true (Some now) row). split.
  - simpl. apply lookup_insert_eq.
  - simpl. rewrite Hn. simpl. by rewrite Hl.
Qed.

Lemma soft_delete_keeps_username_taken_witness :
  is_raised (create
               (mkUserDatabase false None 8 (Some "ACME") "tenant8" "app" "x"
                  "localhost" "5432" "self_hosted")
               (delete Sample.sample_instance 1000 Sample.sample_table).2).1
  = true /\
  (create
     (mkUserDatabase false None 8 (Some "ACME") "tenant8" "app" "x"
        "localhost" "5432" "self_hosted")
     (delete Sample.sample_instance 1000 Sample.sample_table).2).2
  = (delete Sample.sample_instance 1000 Sample.sample_table).2.
Proof.
  apply (soft_delete_keeps_username_taken Sample.sample_instance 1000
           Sample.sample_table 1 Sample.sample_row
           (mkUserDatabase false None 8 (Some "ACME") "tenant8" "app" "x"
              "localhost" "5432" "self_hosted") "acme" "ACME");
    [reflexivity | apply lookup_insert_eq | reflexivity | reflexivity
    | reflexivity].
Defined.

End ModelsMore.

Section VaultMore.
Import Py Ext.

(** With no primary key configured and a legacy key that Fernet refuses,
    [decrypt_password] of api/utils.py hands every input back unchanged. *)
Theorem api_decrypt_without_usable_key (env : Externals) (settings : Settings)
  (c : string) :
  truthy_opt (DB_ENCRYPTION_KEY settings) = false ->
  key_ok (fernet env) (String.substring 0 32 (SECRET_KEY settings)) = false ->
  ApiUtils.decrypt_password env settings c = c.
Proof.
  intros Hkey Hlegacy.
  unfold ApiUtils.decrypt_password, ApiUtils.decrypt_password_try, new_fernet.
  destruct (DB_ENCRYPTION_KEY settings) as [key|]; simpl in Hkey.
  - by rewrite Hkey, Hlegacy.
  - by rewrite Hlegacy.
Qed.

Lemma api_decrypt_without_usable_key_witness :
  ApiUtils.decrypt_password (Sample.sample_env true)
    (mkSettings None "django-insecure-secret" None)
    (Sample.sample_key +:+ "s3cret")
  = Sample.sample_key +:+ "s3cret".
Proof.
  apply (api_decrypt_without_usable_key (Sample.sample_env true)
           (mkSettings None "django-insecure-secret" None));
    reflexivity.
Defined.

(** What [encrypt_password] of api/utils.py produces under a configured
    key that Fernet accepts, [decrypt_password] of communicationapp/utils.py
    turns back into the password under the same key. *)
Theorem comm_decrypts_api_encrypted (env : Externals) (settings : Settings)
  (key p : string) :
  fernet_correct (fernet env) ->
  DB_ENCRYPTION_KEY settings = Some key ->
  truthy key = true ->
  key_ok (fernet env) key = true ->
  CommUtils.decrypt_password (fernet env) key
    (ApiUtils.encrypt_password env settings p) = Returned p.
Proof.
  intros Hlaw Hkey Ht Hok.
  unfold CommUtils.decrypt_password, ApiUtils.encrypt_password,
    ApiUtils.encrypt_password_try, ApiUtils.get_encryption_key, new_fernet,
    decrypt_token.
  rewrite Hkey, Ht, Hok. simpl. by rewrite (Hlaw key _ p Hok).
Qed.

Lemma comm_decrypts_api_encrypted_witness :
  CommUtils.decrypt_password Sample.sample_fernet Sample.sample_key
    (ApiUtils.encrypt_password (Sample.sample_env true) Sample.sample_settings
       "s3cret") = Returned "s3cret".
Proof.
  apply (comm_decrypts_api_encrypted (Sample.sample_env true)
           Sample.sample_settings Sample.sample_key "s3cret"
           sample_fernet_correct); reflexivity.
Defined.

(** [decrypt_password] of communicationapp/utils.py returns only what
    Fernet decrypted under a non-empty key it accepts, and every failure
    leaves it as a [RuntimeError]. *)
Theorem comm_decrypt_outcomes (F : Fernet) (key c : string) :
  match CommUtils.decrypt_password F key c with
  | Returned p =>
      truthy key = true /\ key_ok F key = true /\ fernet_decrypt F key c = Some p
  | Raised e => exists msg, e = RuntimeError msg
  end.
Proof.
  unfold CommUtils.decrypt_password, new_fernet, decrypt_token.
  destruct (truthy key); simpl; [| by eexists].
  destruct (key_ok F key); simpl; [| by eexists].
  destruct (fernet_decrypt F key c); simpl; [done | by eexists].
Qed.

End VaultMore.

(** ** More on the registration *)
Section RegistrationMore.
Import Py Ext Serializers Views.

(** What [validate_db_port] lets through. *)
Lemma validate_db_port_returned env value v :
  validate_db_port env value = Returned v ->
  exists n, py_int env value = Some n /\ (1 <= n <= 65535)%Z.
Proof.
  unfold validate_db_port.
  destruct (py_int env value) as [n|]; [| discriminate].
  destruct (1 <=? n)%Z eqn:H1; destruct (n <=? 65535)%Z eqn:H2; simpl;
    try discriminate.
  intros _. exists n. split; [done | lia].
Qed.

Lemma is_valid_port env run_fields data d :
  is_valid env run_fields data = inr d ->
  exists n, py_int env (db_port d) = Some n /\ (1 <= n <= 65535)%Z.
Proof.
  unfold is_valid.
  destruct (run_fields data) as [errors | d0]; [discriminate |].
  destruct (validate_db_port env (db_port d0)) as [v | e] eqn:Hp;
    [| discriminate].
  intros [= <-]. by apply (validate_db_port_returned _ _ v).
Qed.

(** A payload that passes [is_valid] carries a port that [int] reads as a
    number from 1 to 65535. *)
Theorem valid_port_in_range (env : Externals) (run_fields : FieldValidation)
  (data : RequestData) (d : ValidatedData) :
  is_valid env run_fields data = inr d ->
  exists n, py_int env (db_port d) = Some n /\ (1 <= n <= 65535)%Z.
Proof. apply is_valid_port. Qed.

Lemma valid_port_in_range_witness :
  exists n, py_int (Sample.sample_env true)
              (db_port Sample.sample_validated) = Some n /\
            (1 <= n <= 65535)%Z.
Proof.
  apply (valid_port_in_range (Sample.sample_env true) Sample.sample_fields
           Sample.sample_payload Sample.sample_validated).
  vm_compute. reflexivity.
Defined.

(** Walk [post] down to the four ends that lie after the insert; [fin]
    closes the ends that lie before it. *)
Ltac post_cases Hpost fin :=
  unfold post in Hpost;
  destruct (is_valid _ _ _) as [errors | d0] eqn:Hvalid; [fin |];
  try match goal with Hsame : inr _ = inr _ |- _ => injection Hsame as -> end;
  simpl in Hpost;
  destruct (Models.exists_user_id _ _) eqn:Hex; [fin |];
  destruct (gethostbyname _ _) eqn:Hhost; [| fin];
  destruct (ApiUtils.test_db_connection _ _ _ _ _ _) as [[|] err] eqn:Htest;
    simpl in Hpost; [| fin];
  destruct (bool_decide _) eqn:Halias; [fin |];
  unfold Models.create in Hpost;
  destruct (Models.username_clash _ _) eqn:Hclash; simpl in Hpost; [fin |];
  unfold post_try, ApiUtils.add_db_alias in Hpost;
  destruct (py_int _ _) eqn:Hport; simpl in Hpost;
  [ destruct (call_command_migrate _ _ _) eqn:Hmigrate;
    [ destruct (call_command_showmigrations _ _)
    | rewrite post_except_after_create in Hpost ]
  | rewrite post_except_after_create in Hpost ].

(** Every answer with status 400 (invalid payload, duplicate tenant,
    unresolvable host, failed connection test, alias already in the
    settings) leaves the table, the settings and the connection table
    exactly as they were. *)
Theorem bad_request_writes_nothing (env : Externals)
  (run_fields : FieldValidation) (settings : Settings) (now : Z)
  (data : RequestData) (w w' : World) (resp : Response) :
  post env run_fields settings now data w = (Returned resp, w') ->
  status resp = HTTP_400_BAD_REQUEST ->
  w' = w.
Proof.
  intros Hpost Hst.
  post_cases Hpost ltac:(by (injection Hpost as _ <-) || discriminate Hpost);
    injection Hpost as <- _; discriminate Hst.
Qed.

Lemma bad_request_writes_nothing_witness :
  (post (Sample.sample_env true) Sample.sample_fields Sample.sample_settings
     1000 Sample.sample_payload Sample.registered_world).2
  = Sample.registered_world.
Proof.
  apply (bad_request_writes_nothing (Sample.sample_env true)
           Sample.sample_fields Sample.sample_settings 1000
           Sample.sample_payload Sample.registered_world _
           (duplicate_response 7)).
  - vm_compute. reflexivity.
  - reflexivity.
Defined.



(** A registration answered with status 201 has inserted one record for
    the tenant, not flagged as deleted and holding the password as it was
    submitted; the alias "client_<user_id>", which was free before, is in
    the settings and in the connection table with the decrypted password
    and the port as a number; the response names the alias. *)
Theorem created_registers_record_and_alias (env : Externals)
  (run_fields : FieldValidation) (settings : Settings) (now : Z)
  (data : RequestData) (d : ValidatedData) (w w' : World) (resp : Response) :
  is_valid env run_fields data = inr d ->
  post env run_fields settings now data w = (Returned resp, w') ->
  status resp = HTTP_201_CREATED ->
  alias resp = Some ("client_" +:+ pretty (user_id d)) /\
  settings_DATABASES w !! ("client_" +:+ pretty (user_id d)) = None /\
  (exists cfg,
     settings_DATABASES w' !! ("client_" +:+ pretty (user_id d)) = Some cfg /\
     connections_databases w' !! ("client_" +:+ pretty (user_id d)) = Some cfg /\
     NAME cfg = db_name d /\ USER cfg = db_user d /\ HOST cfg = db_host d /\
     PASSWORD cfg = ApiUtils.decrypt_password env settings (db_password d) /\
     py_int env (db_port d) = Some (PORT cfg) /\
     CONN_HEALTH_CHECKS cfg = true) /\
  (exists row,
     Models.rows (table w') !! Models.next_id (table w) = Some row /\
     Models.user_id row = user_id d /\
     Models.db_password row = db_password d /\
     Models.is_deleted row = false).
Proof.
  intros Hv Hpost Hst.
  post_cases Hpost
    ltac:(discriminate Hv || discriminate Hpost
          || (injection Hpost as <- _; discriminate Hst));
    try (injection Hpost as <- _; discriminate Hst);
    injection Hpost as <- <-; simpl.
  all: apply bool_decide_eq_false in Halias.
  all: split; [done |]; split;
    [by destruct (settings_DATABASES w !! _) eqn:E;
       [exfalso; apply Halias; eexists |] |].
  all: split; [eexists; rewrite !lookup_insert_eq; repeat split; done |].
  all: eexists; rewrite lookup_insert_eq; repeat split; done.
Qed.

Lemma created_registers_record_and_alias_witness :
  alias (mkResponse HTTP_201_CREATED "DB registered and API tables migrated."
           (Some "client_7")) = Some "client_7" /\
  settings_DATABASES Sample.empty_world !! "client_7" = None /\
  (exists cfg,
     settings_DATABASES
       (post (Sample.sample_env true) Sample.sample_fields
          Sample.sample_settings 1000 Sample.sample_payload
          Sample.empty_world).2 !! "client_7" = Some cfg /\
     connections_databases
       (post (Sample.sample_env true) Sample.sample_fields
          Sample.sample_settings 1000 Sample.sample_payload
          Sample.empty_world).2 !! "client_7" = Some cfg /\
     NAME cfg = "tenant7" /\ USER cfg = "app" /\ HOST cfg = "localhost" /\
     PASSWORD cfg = ApiUtils.decrypt_password (Sample.sample_env true)
                      Sample.sample_settings (Sample.sample_key +:+ "s3cret") /\
     Sample.sample_int "5432" = Some (PORT cfg) /\
     CONN_HEALTH_CHECKS cfg = true) /\
  (exists row,
     Models.rows
       (table (post (Sample.sample_env true) Sample.sample_fields
                 Sample.sample_settings 1000 Sample.sample_payload
                 Sample.empty_world).2) !! 1%Z = Some row /\
     Models.user_id row = 7%Z /\
     Models.db_password row = Sample.sample_key +:+ "s3cret" /\
     Models.is_deleted row = false).
Proof.
  apply (created_registers_record_and_alias (Sample.sample_env true)
           Sample.sample_fields Sample.sample_settings 1000
           Sample.sample_payload Sample.sample_validated Sample.empty_world _
           (mkResponse HTTP_201_CREATED "DB registered and API tables migrated."
              (Some "client_7"))).
  - vm_compute. reflexivity.
  - vm_compute. reflexivity.
  - reflexivity.
Defined.

(** The registry of the witness holds the plain password, the table the
    submitted one. *)
Example sample_registry_holds_plain_password :
  PASSWORD <$>
    (settings_DATABASES
       (post (Sample.sample_env true) Sample.sample_fields
          Sample.sample_settings 1000 Sample.sample_payload
          Sample.empty_world).2 !! "client_7") = Some "s3cret".
Proof. vm_compute. reflexivity. Qed.

(** For a payload that passed [is_valid], an answer with status 500 comes
    from a failed migration and from nothing else: registering the alias
    cannot fail on the validated port; the detail carries the message of
    the migration error. *)
Theorem server_error_is_failed_migration (env : Externals)
  (run_fields : FieldValidation) (settings : Settings) (now : Z)
  (data : RequestData) (d : ValidatedData) (w w' : World) (resp : Response) :
  is_valid env run_fields data = inr d ->
  post env run_fields settings now data w = (Returned resp, w') ->
  status resp = HTTP_500_INTERNAL_SERVER_ERROR ->
  exists e cfg,
    call_command_migrate env ("client_" +:+ pretty (user_id d))
      (<["client_" +:+ pretty (user_id d) := cfg]> (connections_databases w))
    = Raised e /\
    detail resp = "Migration failed: " +:+ exn_message e.
Proof.
  intros Hv Hpost Hst.
  destruct (is_valid_port _ _ _ _ Hv) as (n & Hn & _).
  post_cases Hpost
    ltac:(discriminate Hv || discriminate Hpost
          || (injection Hpost as <- _; discriminate Hst));
    try (injection Hpost as <- _; discriminate Hst).
  - injection Hpost as <- _. eexists _, _. split; [exact Hmigrate | done].
  - congruence.
Qed.

Lemma server_error_is_failed_migration_witness :
  exists e cfg,
    call_command_migrate (Sample.sample_env false) "client_7"
      (<["client_7" := cfg]> (connections_databases Sample.empty_world))
    = Raised e /\
    "Migration failed: relation already exists"
    = "Migration failed: " +:+ exn_message e.
Proof.
  apply (server_error_is_failed_migration (Sample.sample_env false)
           Sample.sample_fields Sample.sample_settings 1000
           Sample.sample_payload Sample.sample_validated Sample.empty_world
           Sample.failed_world
           (mkResponse HTTP_500_INTERNAL_SERVER_ERROR
              "Migration failed: relation already exists" None)).
  - vm_compute. reflexivity.
  - vm_compute. reflexivity.
  - reflexivity.
Defined.

End RegistrationMore.

(** ** The directory client *)
Section DirectoryFacts.
Import Py Ext Directory.

Example fetch_sample :
  fetch_client_db_info Cases.sample_config (Cases.sample_net true true)
    (Some 42%Z) None = Returned Cases.info_42.
Proof. vm_compute. reflexivity. Qed.

Example ensure_sample :
  (ensure_alias_for_client Cases.sample_config Cases.sample_django
     (Cases.sample_net true true) 1000 (Some 42%Z) None Cases.fresh_state).1
  = Returned "client_42".
Proof. vm_compute. reflexivity. Qed.

(** The decimal form of a number is never empty. *)
Lemma pretty_N_go_nonempty x s : s ≠ "" -> pretty_N_go x s ≠ "".
Proof.
  revert s. induction (N.lt_wf_0 x) as [x _ IH]. intros s Hs.
  destruct (decide (x = 0%N)) as [-> | Hx].
  - by rewrite pretty_N_go_0.
  - rewrite pretty_N_go_step by lia.
    apply IH; [apply N.div_lt; lia | discriminate].
Qed.

Lemma pretty_N_nonempty (x : N) : pretty x ≠ "".
Proof.
  unfold pretty, pretty_N. destruct (decide (x = 0%N)); [discriminate |].
  rewrite pretty_N_go_step by lia. apply pretty_N_go_nonempty. discriminate.
Qed.

Lemma pretty_Z_nonempty (n : Z) : pretty n ≠ "".
Proof.
  destruct n as [| p | p]; [discriminate | apply pretty_N_nonempty |].
  unfold pretty, pretty_Z. discriminate.
Qed.

Lemma pretty_Z_truthy (n : Z) : truthy (pretty n) = true.
Proof. apply truthy_nonempty, pretty_Z_nonempty. Qed.

(** What a reply must look like for [check_and_normalise] to return. *)
Lemma check_and_normalise_returned data info :
  check_and_normalise data = Returned info ->
  (forall k, k ∈ required -> missing_or_empty (data !! k) = false) /\
  (Some (db_name info) = py_str <$> data !! "db_name" /\
   Some (db_user info) = py_str <$> data !! "db_user" /\
   Some (db_host info) = py_str <$> data !! "db_host" /\
   Some (db_port info) = py_str <$> data !! "db_port") /\
  (db_password_encrypted info = data !! "db_password_encrypted" /\
   db_password info = data !! "db_password" /\
   get_truthy (data !! "db_password_encrypted")
     || get_truthy (data !! "db_password") = true) /\
  ((forall v, data !! "alias" = Some v -> json_truthy v = true ->
              alias info = py_str v) /\
   (get_truthy (data !! "alias") = false ->
    alias info = "client_" +:+ match data !! "user_id" with
                               | Some u => py_str u
                               | None => "None"
                               end)).
Proof.
  unfold check_and_normalise.
  destruct (List.find _ required) eqn:Hfind; [discriminate |].
  destruct (negb _ && negb _) eqn:Hpw; [discriminate |].
  unfold getitem.
  destruct (data !! "db_name") as [n|]; [| discriminate].
  destruct (data !! "db_user") as [u|]; [| discriminate].
  destruct (data !! "db_host") as [h|]; [| discriminate].
  destruct (data !! "db_port") as [p|]; [| discriminate].
  intros [= <-]. simpl. split; [| split; [done | split; [| split]]].
  - intros k Hk. apply list_elem_of_In in Hk.
    exact (List.find_none _ _ Hfind k Hk).
  - repeat split.
    destruct (get_truthy (data !! "db_password_encrypted"));
      destruct (get_truthy (data !! "db_password")); done.
  - intros v -> Hv. by rewrite Hv.
  - destruct (data !! "alias") as [v|]; simpl; [| done]. by intros ->.
Qed.

(** What the network must have said for [fetch_client_db_info] to
    return. *)
Lemma fetch_returned cfg net client_id client_username info :
  fetch_client_db_info cfg net client_id client_username = Returned info ->
  id_truthy client_id || truthy_opt client_username = true /\
  exists url params reply data,
    requests_get net url (_headers cfg) params (ACCOUNTS_TIMEOUT cfg)
      = inr reply /\
    status_code reply = 200%Z /\
    json reply = Some data /\
    check_and_normalise data = Returned info.
Proof.
  unfold fetch_client_db_info.
  destruct (id_truthy client_id || truthy_opt client_username);
    [| discriminate]. simpl.
  destruct (negb (truthy (ACCOUNTS_URL cfg))); [discriminate |].
  destruct (if id_truthy client_id then _ else _) as [url params].
  destruct (requests_get net url _ params _) as [msg | reply] eqn:Hget;
    [discriminate |].
  destruct (status_code reply =? 200)%Z eqn:Hst; [| discriminate]. simpl.
  destruct (json reply) as [data|] eqn:Hjson; [| discriminate].
  intros Hc. split; [done |]. exists url, params, reply, data.
  repeat split; try done. by apply Z.eqb_eq.
Qed.

(** [fetch_client_db_info] returns only on an answer with status 200 and a
    JSON object in which the database name, user, host and port are
    present and neither null nor empty and one of the two password entries
    is truthy; the four entries come back as their [str], the password
    entries as they were. *)
Theorem fetch_returns_checked_fields (cfg : Config) (net : Net)
  (client_id : option Z) (client_username : option string)
  (info : ClientDbInfo) :
  fetch_client_db_info cfg net client_id client_username = Returned info ->
  exists url params reply data,
    requests_get net url (_headers cfg) params (ACCOUNTS_TIMEOUT cfg)
      = inr reply /\
    status_code reply = 200%Z /\
    json reply = Some data /\
    (forall k, k ∈ required -> missing_or_empty (data !! k) = false) /\
    (Some (db_name info) = py_str <$> data !! "db_name" /\
     Some (db_user info) = py_str <$> data !! "db_user" /\
     Some (db_host info) = py_str <$> data !! "db_host" /\
     Some (db_port info) = py_str <$> data !! "db_port") /\
    (db_password_encrypted info = data !! "db_password_encrypted" /\
     db_password info = data !! "db_password" /\
     get_truthy (data !! "db_password_encrypted")
       || get_truthy (data !! "db_password") = true).
Proof.
  intros H. destruct (fetch_returned _ _ _ _ _ H)
    as (_ & url & params & reply & data & Hget & Hst & Hjson & Hc).
  destruct (check_and_normalise_returned _ _ Hc) as (Hreq & Hf & Hpw & _).
  exists url, params, reply, data. done.
Qed.

Lemma fetch_returns_checked_fields_witness :
  exists url params reply data,
    requests_get (Cases.sample_net true true) url
      (_headers Cases.sample_config) params
      (ACCOUNTS_TIMEOUT Cases.sample_config) = inr reply /\
    status_code reply = 200%Z /\
    json reply = Some data /\
    (forall k, k ∈ required -> missing_or_empty (data !! k) = false) /\
    (Some (db_name Cases.info_42) = py_str <$> data !! "db_name" /\
     Some (db_user Cases.info_42) = py_str <$> data !! "db_user" /\
     Some (db_host Cases.info_42) = py_str <$> data !! "db_host" /\
     Some (db_port Cases.info_42) = py_str <$> data !! "db_port") /\
    (db_password_encrypted Cases.info_42 = data !! "db_password_encrypted" /\
     db_password Cases.info_42 = data !! "db_password" /\
     get_truthy (data !! "db_password_encrypted")
       || get_truthy (data !! "db_password") = true).
Proof.
  apply (fetch_returns_checked_fields Cases.sample_config
           (Cases.sample_net true true) (Some 42%Z) None Cases.info_42).
  vm_compute. reflexivity.
Defined.

(** The alias [fetch_client_db_info] returns is the [str] of the "alias"
    entry of the answer when that entry is truthy; otherwise it is
    "client_" followed by the [str] of the "user_id" entry, and
    "client_None" when the answer has no "user_id". *)
Theorem fetch_alias (cfg : Config) (net : Net)
  (client_id : option Z) (client_username : option string)
  (info : ClientDbInfo) :
  fetch_client_db_info cfg net client_id client_username = Returned info ->
  exists url params reply data,
    requests_get net url (_headers cfg) params (ACCOUNTS_TIMEOUT cfg)
      = inr reply /\
    json reply = Some data /\
    (forall v, data !! "alias" = Some v -> json_truthy v = true ->
               alias info = py_str v) /\
    (get_truthy (data !! "alias") = false ->
     forall u, data !! "user_id" = Some u ->
               alias info = "client_" +:+ py_str u) /\
    (get_truthy (data !! "alias") = false -> data !! "user_id" = None ->
     alias info = "client_None").
Proof.
  intros H. destruct (fetch_returned _ _ _ _ _ H)
    as (_ & url & params & reply & data & Hget & Hst & Hjson & Hc).
  destruct (check_and_normalise_returned _ _ Hc) as (_ & _ & _ & Ha & Hd).
  exists url, params, reply, data. repeat split; try done.
  - intros Hf u Hu. rewrite (Hd Hf), Hu. done.
  - intros Hf Hu. rewrite (Hd Hf), Hu. done.
Qed.

Lemma fetch_alias_witness :
  exists url params reply data,
    requests_get (Cases.sample_net true true) url
      (_headers Cases.sample_config) params
      (ACCOUNTS_TIMEOUT Cases.sample_config) = inr reply /\
    json reply = Some data /\
    (forall v, data !! "alias" = Some v -> json_truthy v = true ->
               alias Cases.info_42 = py_str v) /\
    (get_truthy (data !! "alias") = false ->
     forall u, data !! "user_id" = Some u ->
               alias Cases.info_42 = "client_" +:+ py_str u) /\
    (get_truthy (data !! "alias") = false -> data !! "user_id" = None ->
     alias Cases.info_42 = "client_None").
Proof.
  apply (fetch_alias Cases.sample_config (Cases.sample_net true true)
           (Some 42%Z) None Cases.info_42).
  vm_compute. reflexivity.
Defined.

End DirectoryFacts.

(** ** The cache in front of the directory *)
Section CacheFacts.
Import Py Ext Directory.

Lemma cache_get_after_set key value now now' c :
  (now' < now + CACHE_TTL_SECONDS)%Z ->
  cache_get key now' (cache_set key value CACHE_TTL_SECONDS now c) = Some value.
Proof.
  intros H. unfold cache_get, cache_set. rewrite lookup_insert_eq. simpl.
  by rewrite (proj2 (Z.ltb_lt _ _) H).
Qed.

Lemma cache_get_after_expiry key value now now' c :
  (now + CACHE_TTL_SECONDS <= now')%Z ->
  cache_get key now' (cache_set key value CACHE_TTL_SECONDS now c) = None.
Proof.
  intros H. unfold cache_get, cache_set. rewrite lookup_insert_eq. simpl.
  by rewrite (proj2 (Z.ltb_ge _ _) H).
Qed.

(** A look-up that missed the cache and returned has asked the directory
    and stored the answer. *)
Lemma get_cached_after_miss cfg net now client_id client_username st data st1 :
  cache_get (cache_key client_id client_username) now (cache st) = None ->
  get_cached_client_db_info cfg net now client_id client_username st
    = (Returned data, st1) ->
  id_truthy client_id || truthy_opt client_username = true /\
  fetch_client_db_info cfg net client_id client_username = Returned data /\
  st1 = mkState (cache_set (cache_key client_id client_username) data
                   CACHE_TTL_SECONDS now (cache st))
                (settings_DATABASES st) (connections_databases st).
Proof.
  intros Hmiss. unfold get_cached_client_db_info.
  destruct (id_truthy client_id || truthy_opt client_username);
    [| discriminate]. simpl. rewrite Hmiss.
  destruct (fetch_client_db_info cfg net client_id client_username);
    [| discriminate].
  by intros [= <- <-].
Qed.

(** [get_cached_client_db_info] never touches the two connection tables. *)
Lemma get_cached_registries cfg net now client_id client_username st :
  settings_DATABASES
    (get_cached_client_db_info cfg net now client_id client_username st).2
  = settings_DATABASES st /\
  connections_databases
    (get_cached_client_db_info cfg net now client_id client_username st).2
  = connections_databases st.
Proof.
  unfold get_cached_client_db_info.
  destruct (negb _); [done |].
  destruct (cache_get _ _ _); [done |].
  destruct (fetch_client_db_info _ _ _ _); done.
Qed.

(** Once a look-up has fetched an answer, every look-up for the same
    client before the 2000 seconds are over returns that answer and leaves
    the state alone, whatever the directory would say by then. *)
Theorem cached_within_ttl (cfg : Config) (net net' : Net) (now now' : Z)
  (client_id : option Z) (client_username : option string)
  (st st1 : State) (data : ClientDbInfo) :
  cache_get (cache_key client_id client_username) now (cache st) = None ->
  get_cached_client_db_info cfg net now client_id client_username st
    = (Returned data, st1) ->
  (now' < now + CACHE_TTL_SECONDS)%Z ->
  get_cached_client_db_info cfg net' now' client_id client_username st1
    = (Returned data, st1).
Proof.
  intros Hmiss Hcall Hlt.
  destruct (get_cached_after_miss _ _ _ _ _ _ _ _ Hmiss Hcall) as (Hg & _ & ->).
  unfold get_cached_client_db_info. rewrite Hg. simpl.
  by rewrite (cache_get_after_set _ _ _ _ _ Hlt).
Qed.

Lemma cached_within_ttl_witness :
  get_cached_client_db_info Cases.sample_config (Cases.sample_net false false)
    2999 (Some 42%Z) None Cases.looked_up_state
  = (Returned Cases.info_42, Cases.looked_up_state).
Proof.
  apply (cached_within_ttl Cases.sample_config (Cases.sample_net true true)
           (Cases.sample_net false false) 1000 2999 (Some 42%Z) None
           Cases.fresh_state Cases.looked_up_state Cases.info_42).
  - vm_compute. reflexivity.
  - vm_compute. reflexivity.
  - vm_compute. reflexivity.
Defined.

(** From 2000 seconds after the fetch on, a look-up for the same client
    asks the directory again: it returns the new answer and stores it, or
    raises what the fetch raises and keeps the state. *)
Theorem cache_expires_after_ttl (cfg : Config) (net net' : Net) (now now' : Z)
  (client_id : option Z) (client_username : option string)
  (st st1 : State) (data : ClientDbInfo) :
  cache_get (cache_key client_id client_username) now (cache st) = None ->
  get_cached_client_db_info cfg net now client_id client_username st
    = (Returned data, st1) ->
  (now + CACHE_TTL_SECONDS <= now')%Z ->
  get_cached_client_db_info cfg net' now' client_id client_username st1
  = match fetch_client_db_info cfg net' client_id client_username with
    | Returned data' =>
        (Returned data',
         mkState (cache_set (cache_key client_id client_username) data'
                    CACHE_TTL_SECONDS now' (cache st1))
                 (settings_DATABASES st1) (connections_databases st1))
    | Raised e => (Raised e, st1)
    end.
Proof.
  intros Hmiss Hcall Hge.
  destruct (get_cached_after_miss _ _ _ _ _ _ _ _ Hmiss Hcall) as (Hg & _ & ->).
  unfold get_cached_client_db_info. rewrite Hg. simpl.
  by rewrite (cache_get_after_expiry _ _ _ _ _ Hge).
Qed.

Lemma cache_expires_after_ttl_witness :
  get_cached_client_db_info Cases.sample_config (Cases.sample_net false false)
    3000 (Some 42%Z) None Cases.looked_up_state
  = match fetch_client_db_info Cases.sample_config
            (Cases.sample_net false false) (Some 42%Z) None with
    | Returned data' =>
        (Returned data',
         mkState (cache_set (cache_key (Some 42%Z) None) data'
                    CACHE_TTL_SECONDS 3000 (cache Cases.looked_up_state))
                 (settings_DATABASES Cases.looked_up_state)
                 (connections_databases Cases.looked_up_state))
    | Raised e => (Raised e, Cases.looked_up_state)
    end.
Proof.
  apply (cache_expires_after_ttl Cases.sample_config
           (Cases.sample_net true true) (Cases.sample_net false false)
           1000 3000 (Some 42%Z) None Cases.fresh_state
           Cases.looked_up_state Cases.info_42).
  - vm_compute. reflexivity.
  - vm_compute. reflexivity.
  - vm_compute. discriminate.
Defined.

(** With the directory down, the look-up of the sample fails once the
    entry has expired. *)
Example expired_lookup_fails :
  is_raised (get_cached_client_db_info Cases.sample_config
               (Cases.sample_net false false) 3000 (Some 42%Z) None
               Cases.looked_up_state).1 = true.
Proof. vm_compute. reflexivity. Qed.

Lemma cache_key_id_as_username (n : Z) :
  n ≠ 0%Z -> cache_key None (Some (pretty n)) = cache_key (Some n) None.
Proof.
  intros Hn. unfold cache_key.
  by rewrite (proj2 (Z.eqb_neq n 0) Hn).
Qed.

(** The cache key does not tell a client id from a user name: after a
    fetch for the client with id [n], a look-up for the user whose name is
    the decimal form of [n] is answered from the cache with the record of
    client [n], without asking the directory. *)
Theorem cache_key_collision (cfg : Config) (net net' : Net) (now now' : Z)
  (n : Z) (st st1 : State) (data : ClientDbInfo) :
  n ≠ 0%Z ->
  cache_get (cache_key (Some n) None) now (cache st) = None ->
  get_cached_client_db_info cfg net now (Some n) None st
    = (Returned data, st1) ->
  (now' < now + CACHE_TTL_SECONDS)%Z ->
  get_cached_client_db_info cfg net' now' None (Some (pretty n)) st1
    = (Returned data, st1).
Proof.
  intros Hn Hmiss Hcall Hlt.
  destruct (get_cached_after_miss _ _ _ _ _ _ _ _ Hmiss Hcall) as (_ & _ & ->).
  unfold get_cached_client_db_info. simpl.
  rewrite pretty_Z_truthy. simpl.
  rewrite (cache_key_id_as_username _ Hn).
  by rewrite (cache_get_after_set _ _ _ _ _ Hlt).
Qed.

Lemma cache_key_collision_witness :
  get_cached_client_db_info Cases.sample_config (Cases.sample_net false false)
    1500 None (Some (pretty 42%Z)) Cases.looked_up_state
  = (Returned Cases.info_42, Cases.looked_up_state).
Proof.
  apply (cache_key_collision Cases.sample_config (Cases.sample_net true true)
           (Cases.sample_net false false) 1000 1500 42 Cases.fresh_state
           Cases.looked_up_state Cases.info_42).
  - discriminate.
  - vm_compute. reflexivity.
  - vm_compute. reflexivity.
  - vm_compute. reflexivity.
Defined.

End CacheFacts.

(** ** Registering an alias from the directory *)
Section EnsureFacts.
Import Py Ext Directory.

Lemma comm_decrypt_returned F key c p :
  CommUtils.decrypt_password F key c = Returned p ->
  fernet_decrypt F key c = Some p.
Proof.
  unfold CommUtils.decrypt_password, new_fernet, decrypt_token.
  destruct (negb (truthy key)); [discriminate |].
  destruct (key_ok F key); [| discriminate].
  destruct (fernet_decrypt F key c); [| discriminate].
  by intros [= ->].
Qed.

(** With a truthy encrypted entry the chosen password is what Fernet makes
    of that entry. *)
Lemma choose_password_decrypts cfg net data password tok :
  choose_password cfg net data = Returned password ->
  db_password_encrypted data = Some (JStr tok) ->
  truthy tok = true ->
  exists p, password = JStr p /\
            fernet_decrypt (net_fernet net) (DB_ENCRYPTION_KEY cfg) tok = Some p.
Proof.
  unfold choose_password. intros H Henc Ht. rewrite Henc in H. simpl in H.
  rewrite Ht in H.
  destruct (CommUtils.decrypt_password _ _ tok) as [p|] eqn:Hd; [| discriminate].
  injection H as <-. exists p. split; [done |].
  by apply comm_decrypt_returned.
Qed.

(** The two ways [ensure_alias_for_client] returns. *)
Lemma ensure_returned cfg settings net now client_id client_username st a st' :
  ensure_alias_for_client cfg settings net now client_id client_username st
    = (Returned a, st') ->
  exists data st1,
    get_cached_client_db_info cfg net now client_id client_username st
      = (Returned data, st1) /\
    a = alias data /\
    ((is_Some (settings_DATABASES st1 !! a) /\ st' = st1) \/
     (settings_DATABASES st1 !! a = None /\
      exists password,
        choose_password cfg net data = Returned password /\
        psycopg2_connect net (db_name data) (db_user data) password
          (db_host data) (db_port data) (TENANT_CONN_TIMEOUT cfg) = None /\
        st' = (add_db_alias settings a (db_name data) (db_user data) password
                 (db_host data) (db_port data) st1).2)).
Proof.
  unfold ensure_alias_for_client.
  destruct (get_cached_client_db_info _ _ _ _ _ _) as [[data | e] st1];
    [| discriminate].
  destruct (bool_decide _) eqn:Hreg.
  - intros [= <- <-]. exists data, st1. split; [done |]. split; [done |].
    left. split; [by apply bool_decide_eq_true in Hreg | done].
  - apply bool_decide_eq_false in Hreg.
    destruct (choose_password cfg net data) as [password | e] eqn:Hpw;
      [| discriminate].
    unfold test_db_connection.
    destruct (psycopg2_connect _ _ _ _ _ _ _) eqn:Hconn; [discriminate |].
    simpl. intros [= <- <-]. exists data, st1. split; [done |].
    split; [done |]. right. split.
    + destruct (settings_DATABASES st1 !! alias data) eqn:E; [| done].
      exfalso. apply Hreg. by eexists.
    + exists password. done.
Qed.

Lemma ensure_raised cfg settings net now client_id client_username st e st' :
  ensure_alias_for_client cfg settings net now client_id client_username st
    = (Raised e, st') ->
  st' = (get_cached_client_db_info cfg net now client_id client_username st).2.
Proof.
  unfold ensure_alias_for_client.
  destruct (get_cached_client_db_info _ _ _ _ _ _) as [[data | e0] st1]; simpl.
  - destruct (bool_decide _); [discriminate |].
    destruct (choose_password cfg net data); [| by intros [= _ <-]].
    destruct (test_db_connection _ _ _ _ _ _ _) as [[|] err]; simpl;
      [discriminate | by intros [= _ <-]].
  - by intros [= _ <-].
Qed.

(** After a returned call the alias is in the settings, and the other
    aliases stand as before. *)
Lemma ensure_returned_registry cfg settings net now client_id client_username
  st a st' :
  ensure_alias_for_client cfg settings net now client_id client_username st
    = (Returned a, st') ->
  is_Some (settings_DATABASES st' !! a) /\
  (forall b, b ≠ a ->
     settings_DATABASES st' !! b = settings_DATABASES st !! b /\
     connections_databases st' !! b = connections_databases st !! b).
Proof.
  intros H. destruct (ensure_returned _ _ _ _ _ _ _ _ _ H)
    as (data & st1 & Hc & -> & Hcases).
  pose proof (get_cached_registries cfg net now client_id client_username st)
    as [Hs Hd]. rewrite Hc in Hs, Hd. simpl in Hs, Hd.
  destruct Hcases as [[Hreg ->] | (Hnone & password & _ & _ & ->)].
  - split; [done |]. intros b _. by rewrite Hs, Hd.
  - simpl. rewrite lookup_insert_eq. split; [by eexists |].
    intros b Hb. rewrite !lookup_insert_ne by done. by rewrite Hs, Hd.
Qed.

(** Whatever makes [ensure_alias_for_client] raise (the directory, the
    decryption, the connection test), [settings.DATABASES] and
    [connections.databases] are as they were: no alias is registered for a
    database that could not be reached. *)
Theorem ensure_failure_registers_nothing (cfg : Config)
  (settings : DjangoSettings) (net : Net) (now : Z) (client_id : option Z)
  (client_username : option string) (st st' : State) (e : exn) :
  ensure_alias_for_client cfg settings net now client_id client_username st
    = (Raised e, st') ->
  settings_DATABASES st' = settings_DATABASES st /\
  connections_databases st' = connections_databases st.
Proof.
  intros H. rewrite (ensure_raised _ _ _ _ _ _ _ _ _ H).
  apply get_cached_registries.
Qed.

Lemma ensure_failure_registers_nothing_witness :
  settings_DATABASES
    (ensure_alias_for_client Cases.sample_config Cases.sample_django
       (Cases.sample_net true false) 1000 (Some 42%Z) None
       Cases.fresh_state).2
  = settings_DATABASES Cases.fresh_state /\
  connections_databases
    (ensure_alias_for_client Cases.sample_config Cases.sample_django
       (Cases.sample_net true false) 1000 (Some 42%Z) None
       Cases.fresh_state).2
  = connections_databases Cases.fresh_state.
Proof.
  apply (ensure_failure_registers_nothing Cases.sample_config
           Cases.sample_django (Cases.sample_net true false) 1000
           (Some 42%Z) None Cases.fresh_state _
           (RuntimeError "DB connect failed: could not connect to server")).
  vm_compute. reflexivity.
Defined.

(** When the alias the directory names is in [settings.DATABASES] already,
    [ensure_alias_for_client] returns it at once: no password is decrypted,
    no connection is tried, and the state is the one the look-up left. *)
Theorem ensure_registered_is_noop (cfg : Config) (settings : DjangoSettings)
  (net : Net) (now : Z) (client_id : option Z)
  (client_username : option string) (st st1 : State) (data : ClientDbInfo) :
  get_cached_client_db_info cfg net now client_id client_username st
    = (Returned data, st1) ->
  is_Some (settings_DATABASES st !! alias data) ->
  ensure_alias_for_client cfg settings net now client_id client_username st
    = (Returned (alias data), st1).
Proof.
  intros Hc Hreg.
  pose proof (get_cached_registries cfg net now client_id client_username st)
    as [Hs _]. rewrite Hc in Hs. simpl in Hs.
  unfold ensure_alias_for_client. rewrite Hc, Hs.
  by rewrite bool_decide_eq_true_2.
Qed.

Lemma ensure_registered_is_noop_witness :
  ensure_alias_for_client Cases.sample_config Cases.sample_django
    (Cases.sample_net false false) 1500 (Some 42%Z) None
    Cases.registered_state
  = (Returned "client_42", Cases.registered_state).
Proof.
  apply (ensure_registered_is_noop Cases.sample_config Cases.sample_django
           (Cases.sample_net false false) 1500 (Some 42%Z) None
           Cases.registered_state Cases.registered_state Cases.info_42).
  - vm_compute. reflexivity.
  - vm_compute. by eexists.
Defined.

(** When [ensure_alias_for_client] returns an alias that was not in
    [settings.DATABASES], the alias is the one of the directory record,
    and both tables now hold under it one configuration with the name,
    user, host and port of the record, health checks off, and the very
    password the connection test succeeded with: for a record with an
    encrypted password that is a non-empty [str], the Fernet plaintext.
    All other aliases are untouched. *)
Theorem ensure_registers_tested_config (cfg : Config)
  (settings : DjangoSettings) (net : Net) (now : Z) (client_id : option Z)
  (client_username : option string) (st st' : State) (a : string) :
  ensure_alias_for_client cfg settings net now client_id client_username st
    = (Returned a, st') ->
  settings_DATABASES st !! a = None ->
  exists data tc,
    (get_cached_client_db_info cfg net now client_id client_username st).1
      = Returned data /\
    a = alias data /\
    settings_DATABASES st' !! a = Some (TenantEntry tc) /\
    connections_databases st' !! a = Some (TenantEntry tc) /\
    (NAME tc = db_name data /\ USER tc = db_user data /\
     HOST tc = db_host data /\ PORT tc = db_port data /\
     CONN_HEALTH_CHECKS tc = false) /\
    psycopg2_connect net (db_name data) (db_user data) (PASSWORD tc)
      (db_host data) (db_port data) (TENANT_CONN_TIMEOUT cfg) = None /\
    (forall tok, db_password_encrypted data = Some (JStr tok) ->
                 truthy tok = true ->
                 exists p, PASSWORD tc = JStr p /\
                           fernet_decrypt (net_fernet net)
                             (DB_ENCRYPTION_KEY cfg) tok = Some p) /\
    (forall b, b ≠ a ->
       settings_DATABASES st' !! b = settings_DATABASES st !! b /\
       connections_databases st' !! b = connections_databases st !! b).
Proof.
  intros H Hfree.
  destruct (ensure_returned_registry _ _ _ _ _ _ _ _ _ H) as [_ Hothers].
  destruct (ensure_returned _ _ _ _ _ _ _ _ _ H)
    as (data & st1 & Hc & -> & Hcases).
  pose proof (get_cached_registries cfg net now client_id client_username st)
    as [Hs _]. rewrite Hc in Hs. simpl in Hs.
  destruct Hcases as [[Hreg _] | (_ & password & Hpw & Hconn & ->)].
  { rewrite Hs, Hfree in Hreg. by destruct Hreg. }
  eexists data, _. rewrite Hc. simpl. rewrite !lookup_insert_eq.
  split; [done |]. split; [done |]. split; [reflexivity |].
  split; [reflexivity |]. simpl. split; [done |]. split; [exact Hconn |].
  split; [| exact Hothers].
  intros tok Henc Ht. by apply (choose_password_decrypts cfg net data).
Qed.

Lemma ensure_registers_tested_config_witness :
  exists data tc,
    (get_cached_client_db_info Cases.sample_config (Cases.sample_net true true)
       1000 (Some 42%Z) None Cases.fresh_state).1 = Returned data /\
    "client_42" = alias data /\
    settings_DATABASES Cases.registered_state !! "client_42"
      = Some (TenantEntry tc) /\
    connections_databases Cases.registered_state !! "client_42"
      = Some (TenantEntry tc) /\
    (NAME tc = db_name data /\ USER tc = db_user data /\
     HOST tc = db_host data /\ PORT tc = db_port data /\
     CONN_HEALTH_CHECKS tc = false) /\
    psycopg2_connect (Cases.sample_net true true) (db_name data)
      (db_user data) (PASSWORD tc) (db_host data) (db_port data)
      (TENANT_CONN_TIMEOUT Cases.sample_config) = None /\
    (forall tok, db_password_encrypted data = Some (JStr tok) ->
                 truthy tok = true ->
                 exists p, PASSWORD tc = JStr p /\
                           fernet_decrypt
                             (net_fernet (Cases.sample_net true true))
                             (DB_ENCRYPTION_KEY Cases.sample_config) tok
                           = Some p) /\
    (forall b, b ≠ "client_42" ->
       settings_DATABASES Cases.registered_state !! b
         = settings_DATABASES Cases.fresh_state !! b /\
       connections_databases Cases.registered_state !! b
         = connections_databases Cases.fresh_state !! b).
Proof.
  apply (ensure_registers_tested_config Cases.sample_config
           Cases.sample_django (Cases.sample_net true true) 1000
           (Some 42%Z) None Cases.fresh_state Cases.registered_state
           "client_42").
  - vm_compute. reflexivity.
  - vm_compute. reflexivity.
Defined.

(** The registry of the sample holds the plain password. *)
Example sample_alias_holds_plain_password :
  settings_DATABASES Cases.registered_state !! "client_42"
  = Some (TenantEntry
            (mkTenantConfig "django.db.backends.postgresql" "tenant42" "app"
               (JStr "s3cret") "db.internal" "5432" 60 false false true
               (Some "UTC") 10)).
Proof. vm_compute. reflexivity. Qed.

End EnsureFacts.

(** ** Refreshing an alias *)
Section RefreshFacts.
Import Py Ext Directory.


(** When [refresh_alias_for_client] raises after the directory has
    answered (the password cannot be decrypted, the database cannot be
    reached), the alias of the answer is in neither table any more,
    whether or not it was registered before. *)
Theorem refresh_failure_unregisters (cfg : Config) (settings : DjangoSettings)
  (net : Net) (now : Z) (client_id : option Z)
  (client_username : option string) (st st' : State) (e : exn)
  (data : ClientDbInfo) :
  refresh_alias_for_client cfg settings net now client_id client_username st
    = (Raised e, st') ->
  fetch_client_db_info cfg net client_id client_username = Returned data ->
  settings_DATABASES st' !! alias data = None /\
  connections_databases st' !! alias data = None.
Proof.
  unfold refresh_alias_for_client. intros H Hfetch. rewrite Hfetch in H.
  cbn [cache settings_DATABASES connections_databases] in H.
  rewrite (ensure_raised _ _ _ _ _ _ _ _ _ H).
  destruct (get_cached_registries cfg net now client_id client_username
    (mkState (base.delete (cache_key client_id client_username) (cache st))
       (base.delete (alias data) (settings_DATABASES st))
       (base.delete (alias data) (connections_databases st)))) as [Hs Hd].
  simpl in Hs, Hd. rewrite Hs, Hd, !lookup_delete_eq. done.
Qed.

Lemma refresh_failure_unregisters_witness :
  settings_DATABASES
    (refresh_alias_for_client Cases.sample_config Cases.sample_django
       (Cases.sample_net true false) 1500 (Some 42%Z) None
       Cases.registered_state).2 !! alias Cases.info_42 = None /\
  connections_databases
    (refresh_alias_for_client Cases.sample_config Cases.sample_django
       (Cases.sample_net true false) 1500 (Some 42%Z) None
       Cases.registered_state).2 !! alias Cases.info_42 = None.
Proof.
  apply (refresh_failure_unregisters Cases.sample_config Cases.sample_django
           (Cases.sample_net true false) 1500 (Some 42%Z) None
           Cases.registered_state _
           (RuntimeError "DB connect failed: could not connect to server")
           Cases.info_42).
  - vm_compute. reflexivity.
  - vm_compute. reflexivity.
Defined.

(** The alias of the sample was registered before the refresh failed. *)
Example sample_alias_was_registered :
  is_Some (settings_DATABASES Cases.registered_state !! alias Cases.info_42).
Proof. vm_compute. by eexists. Qed.



End RefreshFacts.

(** ** Getting the alias of a token ready *)
Section ReadyFacts.
Import Py Ext Directory Ready.

Lemma nonempty_of_lookup (t : gmap string JsonVal) k v :
  t !! k = Some v -> bool_decide (t = ∅) = false.
Proof.
  intros H. apply bool_decide_eq_false. intros ->.
  by rewrite lookup_empty in H.
Qed.

(** For a token whose alias is a [str]: when the alias is in
    [settings.DATABASES], [_ensure_alias_ready] returns it and touches
    nothing; when it is not, the token carries neither a truthy
    [client_username] nor a truthy [client_id], and the alias does not
    start with "client_", it raises [APIException] and touches nothing.
    In both cases the directory is not asked. *)
Theorem ready_without_lookup (cfg : Config) (settings : DjangoSettings)
  (net : Net) (parse : string -> option Z) (now : Z)
  (t : gmap string JsonVal) (a : string) (st : State) :
  t !! "alias" = Some (JStr a) ->
  (is_Some (settings_DATABASES st !! a) ->
   _ensure_alias_ready cfg settings net parse now (Some t) st
     = (inr (JStr a), st)) /\
  (settings_DATABASES st !! a = None ->
   get_truthy (t !! "client_username") = false ->
   get_truthy (t !! "client_id") = false ->
   startswith a "client_" = false ->
   _ensure_alias_ready cfg settings net parse now (Some t) st
     = (inl (APIException "Unable to resolve tenant DB."), st)).
Proof.
  intros Ha. unfold _ensure_alias_ready, not_registered.
  rewrite (nonempty_of_lookup _ _ _ Ha), Ha. split.
  - intros Hreg. by rewrite bool_decide_eq_true_2.
  - intros Hfree Hu Hi Hp.
    rewrite bool_decide_eq_false_2 by (rewrite Hfree; by intros [? ?]).
    simpl. by rewrite Hu, Hi, Hp.
Qed.

Lemma ready_without_lookup_witness :
  (is_Some (settings_DATABASES Cases.fresh_state !! "tenant-x") ->
   _ensure_alias_ready Cases.sample_config Cases.sample_django
     (Cases.sample_net false false) Sample.sample_int 1000
     (Some Cases.stray_token) Cases.fresh_state
     = (inr (JStr "tenant-x"), Cases.fresh_state)) /\
  (settings_DATABASES Cases.fresh_state !! "tenant-x" = None ->
   get_truthy (Cases.stray_token !! "client_username") = false ->
   get_truthy (Cases.stray_token !! "client_id") = false ->
   startswith "tenant-x" "client_" = false ->
   _ensure_alias_ready Cases.sample_config Cases.sample_django
     (Cases.sample_net false false) Sample.sample_int 1000
     (Some Cases.stray_token) Cases.fresh_state
     = (inl (APIException "Unable to resolve tenant DB."), Cases.fresh_state)).
Proof.
  apply (ready_without_lookup Cases.sample_config Cases.sample_django
           (Cases.sample_net false false) Sample.sample_int 1000
           Cases.stray_token "tenant-x" Cases.fresh_state).
  vm_compute. reflexivity.
Defined.

Lemma then_return_returned alias r v st' :
  then_return alias r = (inr v, st') ->
  v = alias /\ exists b, r = (Returned b, st').
Proof.
  unfold then_return. destruct r as [[b | e] st1]; [| discriminate].
  intros [= <- <-]. split; [done | by eexists].
Qed.

(** [_ensure_alias_ready] returns the alias of the token, not the alias
    the directory names.  When it returns an alias that was not in
    [settings.DATABASES], it has made one call of
    [ensure_alias_for_client], and the returned alias is registered
    afterwards exactly when that call registered the same alias. *)
Theorem ready_alias_registered_iff (cfg : Config) (settings : DjangoSettings)
  (net : Net) (parse : string -> option Z) (now : Z)
  (t : gmap string JsonVal) (a : string) (st st' : State) :
  _ensure_alias_ready cfg settings net parse now (Some t) st
    = (inr (JStr a), st') ->
  settings_DATABASES st !! a = None ->
  t !! "alias" = Some (JStr a) /\
  exists client_id client_username b,
    ensure_alias_for_client cfg settings net now client_id client_username st
      = (Returned b, st') /\
    (is_Some (settings_DATABASES st' !! a) <-> b = a).
Proof.
  intros H Hfree. unfold _ensure_alias_ready in H.
  destruct (bool_decide (t = ∅)); [discriminate |].
  destruct (t !! "alias") as [alias|] eqn:Ha; [| discriminate].
  assert (forall client_id client_username,
    then_return alias
      (ensure_alias_for_client cfg settings net now client_id
         client_username st) = (inr (JStr a), st') ->
    Some alias = Some (JStr a) /\
    exists client_id client_username b,
      ensure_alias_for_client cfg settings net now client_id
        client_username st = (Returned b, st') /\
      (is_Some (settings_DATABASES st' !! a) <-> b = a)) as Hcall.
  { intros cid cun Hr.
    destruct (then_return_returned _ _ _ _ Hr) as [<- [b Hb]].
    split; [done |]. exists cid, cun, b. split; [done |].
    destruct (ensure_returned_registry _ _ _ _ _ _ _ _ _ Hb) as [Hreg Hothers].
    split.
    - intros Hsome. destruct (decide (b = a)) as [-> | Hne]; [done |].
      destruct (Hothers a (not_eq_sym Hne)) as [Hs _].
      rewrite Hs, Hfree in Hsome. by destruct Hsome.
    - by intros <-. }
  destruct (not_registered alias st) eqn:Hnr.
  - destruct (get_truthy (t !! "client_username")); [by apply Hcall in H |].
    destruct (get_truthy (t !! "client_id")).
    { destruct (int_of parse _); [by apply Hcall in H | discriminate]. }
    destruct alias as [| | | s]; try discriminate.
    destruct (startswith s "client_"); [| discriminate].
    destruct (int_of parse _); [by apply Hcall in H | discriminate].
  - injection H as -> <-. unfold not_registered in Hnr.
    rewrite Hfree in Hnr. rewrite bool_decide_eq_false_2 in Hnr;
      [discriminate | by intros [? ?]].
Qed.

Lemma ready_alias_registered_iff_witness :
  Cases.mixed_token !! "alias" = Some (JStr "client_7") /\
  exists client_id client_username b,
    ensure_alias_for_client Cases.sample_config Cases.sample_django
      (Cases.sample_net true true) 1000 client_id client_username
      Cases.fresh_state = (Returned b, Cases.registered_state) /\
    (is_Some (settings_DATABASES Cases.registered_state !! "client_7")
     <-> b = "client_7").
Proof.
  apply (ready_alias_registered_iff Cases.sample_config Cases.sample_django
           (Cases.sample_net true true) Sample.sample_int 1000
           Cases.mixed_token "client_7" Cases.fresh_state
           Cases.registered_state).
  - vm_compute. reflexivity.
  - vm_compute. reflexivity.
Defined.

(** In the sample the token says "client_7", the directory says
    "client_42": the alias handed back is not registered. *)
Example sample_ready_alias_not_registered :
  (_ensure_alias_ready Cases.sample_config Cases.sample_django
     (Cases.sample_net true true) Sample.sample_int 1000
     (Some Cases.mixed_token) Cases.fresh_state).1 = inr (JStr "client_7") /\
  settings_DATABASES
    (_ensure_alias_ready Cases.sample_config Cases.sample_django
       (Cases.sample_net true true) Sample.sample_int 1000
       (Some Cases.mixed_token) Cases.fresh_state).2 !! "client_7" = None.
Proof. vm_compute. done. Qed.

End ReadyFacts.
